(** * jsonrpc11base: the JSON-RPC 1.1 request lifecycle

    A shallow embedding of [jsonrpc11base/errors.py] and
    [jsonrpc11base/main.py] (class [JSONRPCService]) and the properties of
    the request lifecycle: structural validation, method resolution,
    parameter validation, invocation, result validation and the mapping of
    every outcome to a response envelope.

    Python values are embedded as [pyval]; a Python [dict] is an association
    list in insertion order, because the order is observable
    ([list(self.method_registry.keys())], [json.dumps]).  A call that may
    raise returns an [outcome]; [try]/[except] is a [match] on it. *)

From Stdlib Require Import String Ascii ZArith List Bool Lia DecimalString.
Import ListNotations.
Open Scope string_scope.
Open Scope Z_scope.

Set Implicit Arguments.
Set Warnings "-register-all".

(** ** Python values *)

Module Py.

(** The JSON-shaped values that travel through the service.  [PNone] is
    Python's [None], which [json] reads from and writes as [null]. *)
Inductive pyval : Type :=
| PNone
| PBool (b : bool)
| PInt (z : Z)
| PStr (s : string)
| PList (l : list pyval)
| PDict (d : list (string * pyval)).

Definition dict (V : Type) := list (string * V).

(** [x is None] *)
Definition is_none (v : pyval) : bool :=
  match v with PNone => true | _ => false end.

Section Dict.
Variable V : Type.

(** [d[k]] when present. *)
Fixpoint dict_lookup (k : string) (d : dict V) : option V :=
  match d with
  | [] => None
  | (k', v) :: rest => if String.eqb k k' then Some v else dict_lookup k rest
  end.

(** [k in d] *)
Definition dict_mem (k : string) (d : dict V) : bool :=
  match dict_lookup k d with Some _ => true | None => false end.

(** [d[k] = v]: an existing key keeps its position, a new key goes last. *)
Fixpoint dict_set (k : string) (v : V) (d : dict V) : dict V :=
  match d with
  | [] => [(k, v)]
  | (k', v') :: rest =>
      if String.eqb k k' then (k', v) :: rest else (k', v') :: dict_set k v rest
  end.

(** [list(d.keys())] *)
Definition dict_keys (d : dict V) : list string := map fst d.
End Dict.

(** [d.get(k)]: the value, or [None] when the key is absent. *)
Definition dict_get (k : string) (d : dict pyval) : pyval :=
  match dict_lookup k d with Some v => v | None => PNone end.

(** [needle in hay] on two [str]. *)
Fixpoint str_contains (needle hay : string) : bool :=
  if String.prefix needle hay then true
  else match hay with
       | EmptyString => false
       | String _ rest => str_contains needle rest
       end.

(** [repr(z)] for an [int]: its decimal numeral. *)
Definition repr_int (z : Z) : string := NilZero.string_of_int (Z.to_int z).

Definition double_quote : ascii := ascii_of_nat 34.
Definition back_slash : ascii := ascii_of_nat 92.

Fixpoint has_char (c : ascii) (s : string) : bool :=
  match s with
  | EmptyString => false
  | String c' rest => Ascii.eqb c c' || has_char c rest
  end.

Definition hex_digit (n : nat) : ascii :=
  match n with
  | 0 => "0" | 1 => "1" | 2 => "2" | 3 => "3" | 4 => "4" | 5 => "5"
  | 6 => "6" | 7 => "7" | 8 => "8" | 9 => "9" | 10 => "a" | 11 => "b"
  | 12 => "c" | 13 => "d" | 14 => "e" | _ => "f"
  end%char%nat.

(** The characters of [repr(s)] between the quotes: the quote in use and
    the backslash are escaped, tab, newline and carriage return are
    written [\t], [\n], [\r], any other control character [\xhh]. *)
Fixpoint repr_chars (quote : ascii) (s : string) : string :=
  match s with
  | EmptyString => EmptyString
  | String c rest =>
      let n := nat_of_ascii c in
      let tail := repr_chars quote rest in
      if Ascii.eqb c quote || Ascii.eqb c back_slash then
        String back_slash (String c tail)
      else if Nat.eqb n 9 then String back_slash (String "t" tail)
      else if Nat.eqb n 10 then String back_slash (String "n" tail)
      else if Nat.eqb n 13 then String back_slash (String "r" tail)
      else if Nat.ltb n 32 || Nat.eqb n 127 then
        String back_slash
          (String "x" (String (hex_digit (Nat.div n 16))
                              (String (hex_digit (Nat.modulo n 16)) tail)))
      else String c tail
  end.

(** [repr(s)] for a [str]: single quotes, or double quotes when [s] has a
    single quote and no double quote.  Bytes above 127 are the UTF-8 of
    printable characters and stay as they are. *)
Definition repr_str (s : string) : string :=
  let quote :=
    if has_char "'" s && negb (has_char double_quote s) then double_quote else "'"%char in
  String quote (repr_chars quote s ++ String quote EmptyString).

(** [str(x)] for an [Optional[str]] attribute. *)
Definition str_of_opt (m : option string) : string :=
  match m with Some s => s | None => "None" end.

End Py.
Import Py.

(** ** Exceptions and outcomes *)

(** The exceptions the lifecycle tells apart, by the [except] clauses of
    [call_py].  [JSONRPCError] and [APIError] stand for the two classes of
    errors.py and all their subclasses, with the attributes [code],
    [message] and [data] as annotated there.  [SchemaError] is the
    violation report of [jsonrpc11base.validation.schema].
    [PlainException] is any other subclass of [Exception]: its class name,
    [str(ex)] and the lines of [traceback.format_exc]. *)
Inductive exn : Type :=
| SchemaError (message path value : pyval)
| JSONRPCError (code : Z) (message : option string) (data : option (dict pyval))
| APIError (code : Z) (message : option string) (data : option (dict pyval))
| PlainException (cls : string) (text : string) (trace : list string).

Inductive outcome (A : Type) : Type :=
| Return (a : A)
| Raise (e : exn).
Arguments Return {A} a.
Arguments Raise {A} e.

Definition bind {A B : Type} (m : outcome A) (k : A -> outcome B) : outcome B :=
  match m with
  | Return a => k a
  | Raise e => Raise e
  end.

Notation "x <- m ;; k" := (bind m (fun x => k))
  (at level 61, m at next level, right associativity).
Notation "m ;;; k" := (bind m (fun _ => k))
  (at level 61, right associativity).

(** Errors of the interpreter itself.  [str] of a [KeyError] is the [repr]
    of the missing key. *)
Definition TypeError (text : string) : exn := PlainException "TypeError" text [].
Definition KeyError (text : string) : exn := PlainException "KeyError" text [].
Definition AttributeError (text : string) : exn :=
  PlainException "AttributeError" text [].

(** ** errors.py *)

Module Errors.

(** [RPC_ERRORS] *)
Definition RPC_ERRORS : list (Z * string) :=
  [ (-32700, "Parse error");
    (-32600, "Invalid Request");
    (-32601, "Method not found");
    (-32602, "Invalid params");
    (-32603, "Internal error");
    (-32000, "Server error") ].

Fixpoint assoc_Z (c : Z) (t : list (Z * string)) : option string :=
  match t with
  | [] => None
  | (c', s) :: rest => if Z.eqb c c' then Some s else assoc_Z c rest
  end.

(** [RPC_ERRORS[code]].  The table is keyed by [int]; [True] and [False]
    hash as 1 and 0, a [list] or [dict] is unhashable. *)
Definition RPC_ERRORS_getitem (code : pyval) : outcome string :=
  match code with
  | PInt c =>
      match assoc_Z c RPC_ERRORS with
      | Some s => Return s
      | None => Raise (KeyError (repr_int c))
      end
  | PList _ => Raise (TypeError "unhashable type: 'list'")
  | PDict _ => Raise (TypeError "unhashable type: 'dict'")
  | PNone => Raise (KeyError "None")
  | PBool true => Raise (KeyError "True")
  | PBool false => Raise (KeyError "False")
  | PStr s => Raise (KeyError (repr_str s))
  end.

(** [JSONRPCError.to_json] *)
Definition JSONRPCError_to_json (code : Z) (message : option string)
    (data : option (dict pyval)) : dict pyval :=
  let error := [ ("name", PStr "JSONRPCError");
                 ("code", PInt code);
                 ("message", PStr (str_of_opt message)) ] in
  match data with
  | Some d => dict_set "error" (PDict d) error
  | None => error
  end.

(** [APIError.to_json] *)
Definition APIError_to_json (code : Z) (message : option string)
    (data : option (dict pyval)) : dict pyval :=
  let error := [ ("name", PStr "APIError");
                 ("code", PInt code);
                 ("message", PStr (str_of_opt message)) ] in
  match data with
  | Some d => dict_set "error" (PDict d) error
  | None => error
  end.

(** [e.to_json()]: only the two error classes define it. *)
Definition to_json (e : exn) : outcome (dict pyval) :=
  match e with
  | JSONRPCError code message data => Return (JSONRPCError_to_json code message data)
  | APIError code message data => Return (APIError_to_json code message data)
  | _ => Raise (AttributeError "object has no attribute 'to_json'")
  end.

(** [InvalidParamsError(data)] *)
Definition InvalidParamsError (data : option (dict pyval)) : exn :=
  JSONRPCError (-32602) (Some "Invalid params") data.

(** [ServerError_ReservedErrorCode(bad_code)] *)
Definition ServerError_ReservedErrorCode (bad_code : Z) : exn :=
  JSONRPCError (-32001) (Some "Reserved Error Code")
               (Some [ ("bad_code", PInt bad_code) ]).

(** [ServerError_InvalidResult(bad_result)] *)
Definition ServerError_InvalidResult (bad_result : pyval) : exn :=
  JSONRPCError (-32002) (Some "Invalid result")
               (Some [ ("bad_result", bad_result) ]).

(** [make_jsonrpc_error(code, message=None, error=None)].
    [message or RPC_ERRORS[code]] reads the table when [message] is [None]
    or empty. *)
Definition make_jsonrpc_error (code : pyval) (message : option string)
    (error : pyval) : outcome (dict pyval) :=
  error_message <-
    match message with
    | Some (String c s) => Return (String c s)
    | Some EmptyString | None => RPC_ERRORS_getitem code
    end ;;
  let jsonrpc_error := [ ("name", PStr "JSONRPCError");
                         ("code", code);
                         ("message", PStr error_message) ] in
  if is_none error then Return jsonrpc_error
  else Return (dict_set "error" error jsonrpc_error).

(** [make_jsonrpc_error_response(error, id=None)] *)
Definition make_jsonrpc_error_response (error : pyval) (id : pyval) : pyval :=
  let response_data := [ ("version", PStr "1.1"); ("error", error) ] in
  if is_none id then PDict response_data
  else PDict (dict_set "id" id response_data).

End Errors.
Import Errors.

(** ** main.py: the service *)

(** The interface of [validation.Validation] that the lifecycle consumes.
    The class loads its schemas from a directory and is not part of the
    sources modelled here; the service holds it as a value.  A [validate_*]
    call returns, or raises what the schema library raises. *)
Record Validation : Type := {
  has_params_validation : string -> bool;
  has_absent_params_validation : string -> bool;
  validate_params : string -> pyval -> outcome unit;
  validate_absent_params : string -> outcome unit;
  has_result_validation : string -> bool;
  has_absent_result_validation : string -> bool;
  validate_result : string -> pyval -> outcome unit
}.

(** [Method(func)]: [call(params, options)] runs the handler. *)
Record Method : Type := { call_method : pyval -> pyval -> outcome pyval }.

(** A Python function given to [add]: its [__name__] and its body. *)
Record PyFunction : Type := {
  func_name : string;
  func_body : pyval -> pyval -> outcome pyval
}.

(** The attributes of a [JSONRPCService].  [jsonrpc_schemas] is
    [self.jsonrpc_schemas.validate('request', _)], the fixed structural
    schema of a request; [description] is [self.description.to_json()]. *)
Record JSONRPCService : Type := {
  jsonrpc_schemas : pyval -> outcome unit;
  service_validation : option Validation;
  system_validation : Validation;
  method_registry : dict Method;
  validate_result_flag : bool;
  description : pyval
}.

(** [handle_system_describe] *)
Definition handle_system_describe (description : pyval) : Method :=
  {| call_method := fun _ _ => Return description |}.

(** [JSONRPCService.__init__]: the registry starts with [system.describe]. *)
Definition init (request_schema : pyval -> outcome unit)
    (service : option Validation) (system : Validation)
    (description : pyval) (validate_result : bool) : JSONRPCService :=
  {| jsonrpc_schemas := request_schema;
     service_validation := service;
     system_validation := system;
     method_registry := [ ("system.describe", handle_system_describe description) ];
     validate_result_flag := validate_result;
     description := description |}.

Definition set_registry (self : JSONRPCService) (r : dict Method) : JSONRPCService :=
  {| jsonrpc_schemas := jsonrpc_schemas self;
     service_validation := service_validation self;
     system_validation := system_validation self;
     method_registry := r;
     validate_result_flag := validate_result_flag self;
     description := description self |}.

(** [exceptions.DuplicateMethodName(msg)] *)
Definition DuplicateMethodName (msg : string) : exn :=
  PlainException "DuplicateMethodName" msg [].

(** [name if name else func.__name__]: an empty name counts as none. *)
Definition function_name (func : PyFunction) (name : option string) : string :=
  match name with
  | Some (String c s) => String c s
  | Some EmptyString | None => func_name func
  end.

(** [JSONRPCService.add]: the outcome and the service afterwards. *)
Definition add (self : JSONRPCService) (func : PyFunction) (name : option string)
  : outcome unit * JSONRPCService :=
  let function_name := function_name func name in
  if dict_mem function_name (method_registry self) then
    let msg := "Method already registered under this name: '" ++ function_name ++ "'" in
    (Raise (DuplicateMethodName msg), self)
  else
    (Return tt,
     set_registry self
       (dict_set function_name {| call_method := func_body func |}
                 (method_registry self))).

(** *** The closures of [call_py] *)

Definition msg_dict (text : string) : dict pyval := [ ("message", PStr text) ].

(** [do_method]: parameter validation, then the handler. *)
Definition do_method (self : JSONRPCService) (method_name : string)
    (method : Method) (params options : pyval) : outcome pyval :=
  let validator :=
    if String.prefix "system." method_name
    then Some (system_validation self)
    else service_validation self in
  match validator with
  | Some validator =>
      if has_params_validation validator method_name then
        if is_none params then
          Raise (InvalidParamsError (Some (msg_dict
            "Method has parameters specified, but none were provided")))
        else
          validate_params validator method_name params ;;;
          call_method method params options
      else if has_absent_params_validation validator method_name then
        if is_none params then
          validate_absent_params validator method_name ;;;
          call_method method PNone options
        else
          Raise (InvalidParamsError (Some (msg_dict
            "Method has no parameters specified, but arguments were provided")))
      else
        Raise (InvalidParamsError (Some (msg_dict
          "Validation is enabled, but no parameter validator was provided")))
  | None => call_method method params options
  end.

(** [do_result]: result validation. *)
Definition do_result (self : JSONRPCService) (method_name : string)
    (result : pyval) : outcome pyval :=
  if negb (validate_result_flag self) then Return result
  else
    match service_validation self with
    | None => Return result
    | Some sv =>
        if negb (has_result_validation sv method_name) then
          Raise (InvalidParamsError (Some (msg_dict
            "Validation is enabled, but no result validator was provided")))
        else if has_absent_result_validation sv method_name then
          if is_none result then Return PNone
          else
            Raise (ServerError_InvalidResult (PDict (msg_dict
              "The method is specified to not return a result, but a value was returned")))
        else
          validate_result sv method_name result ;;;
          Return result
    end.

(** [d[k]] *)
Definition getitem (k : string) (d : dict pyval) : outcome pyval :=
  match dict_lookup k d with
  | Some v => Return v
  | None => Raise (KeyError (repr_str k))
  end.

(** [x[k] = v] on a value: only a [dict] takes a [str] key. *)
Definition setitem (x : pyval) (k : string) (v : pyval) : outcome pyval :=
  match x with
  | PDict d => Return (PDict (dict_set k v d))
  | PList _ => Raise (TypeError "list indices must be integers or slices, not str")
  | _ => Raise (TypeError "object does not support item assignment")
  end.

(** [make_result_response]: [has_id] and [req_data] come from the closure. *)
Definition make_result_response (has_id : bool) (req_data : dict pyval)
    (result : pyval) : outcome pyval :=
  let response_data := [ ("version", PStr "1.1"); ("result", result) ] in
  if has_id then
    id <- getitem "id" req_data ;;
    Return (PDict (dict_set "id" id response_data))
  else Return (PDict response_data).

(** [make_error_response]: [method_name] is a [str] here, never [None], so
    the entry [method] is always written into the error's [error] member
    (the object [e.data] itself when the error came from [to_json]). *)
Definition make_error_response (method_name : string) (id : pyval)
    (error : dict pyval) : outcome pyval :=
  let error1 :=
    if negb (dict_mem "error" error) then dict_set "error" (PDict []) error
    else error in
  inner <- getitem "error" error1 ;;
  inner <- setitem inner "method" (PStr method_name) ;;
  Return (make_jsonrpc_error_response (PDict (dict_set "error" inner error1)) id).

(** The reserved band of error codes: [-32768 <= code <= -32000]. *)
Definition reserved_code (code : Z) : bool :=
  (code >=? -32768) && (code <=? -32000).

(** The [try] statement that ends [call_py], with its four [except]
    clauses in source order. *)
Definition call_py_try (self : JSONRPCService) (req_data : dict pyval)
    (has_id : bool) (id : pyval) (method_name : string) (method : Method)
    (params options : pyval) : outcome pyval :=
  match (result <- do_method self method_name method params options ;;
         result <- do_result self method_name result ;;
         make_result_response has_id req_data result) with
  | Return response => Return response
  | Raise (SchemaError message path value) =>
      let error := [ ("message", message); ("path", path); ("value", value) ] in
      error <- make_jsonrpc_error (PDict error) None PNone ;;
      make_error_response method_name id error
  | Raise (JSONRPCError _ _ _ as e) =>
      error <- to_json e ;;
      make_error_response method_name id error
  | Raise (APIError code _ _ as e) =>
      if reserved_code code then
        error <- to_json (ServerError_ReservedErrorCode code) ;;
        make_error_response method_name id error
      else
        error <- to_json e ;;
        make_error_response method_name id error
  | Raise (PlainException _ text trace) =>
      error <- make_jsonrpc_error (PInt (-32002)) (Some "Exception calling method")
                 (PDict [ ("message",
                           PStr "An unexpected exception was caught executing the method");
                          ("exception_message", PStr text);
                          ("traceback", PList (map PStr trace)) ]) ;;
      make_error_response method_name id error
  end.

(** ['id' in req_data] *)
Definition contains (k : string) (x : pyval) : outcome bool :=
  match x with
  | PDict d => Return (dict_mem k d)
  | PList l =>
      Return (existsb (fun v => match v with PStr s => String.eqb s k | _ => false end) l)
  | PStr s => Return (str_contains k s)
  | _ => Raise (TypeError "argument is not iterable")
  end.

(** [req_data.get(k)] and [req_data[k]]: the rest of [call_py] needs a
    [dict]. *)
Definition as_dict (x : pyval) : outcome (dict pyval) :=
  match x with
  | PDict d => Return d
  | _ => Raise (AttributeError "object has no attribute 'get'")
  end.

(** The branch [method_name not in self.method_registry]. *)
Definition method_not_found (self : JSONRPCService) (method_name id : pyval)
  : outcome pyval :=
  let methods := PList (map PStr (dict_keys (method_registry self))) in
  error <- make_jsonrpc_error (PInt (-32601)) None
             (PDict [ ("method", method_name); ("available_methods", methods) ]) ;;
  Return (make_jsonrpc_error_response (PDict error) id).

(** [JSONRPCService.call_py] *)
Definition call_py (self : JSONRPCService) (req_data options : pyval) : outcome pyval :=
  match jsonrpc_schemas self req_data with
  | Raise (SchemaError message path value) =>
      error <- make_jsonrpc_error (PInt (-32600)) None
                 (PDict [ ("message", message); ("path", path); ("value", value) ]) ;;
      match req_data with
      | PDict d => Return (make_jsonrpc_error_response (PDict error) (dict_get "id" d))
      | _ => Return (make_jsonrpc_error_response (PDict error) PNone)
      end
  | Raise e => Raise e
  | Return _ =>
      has_id <- contains "id" req_data ;;
      req <- as_dict req_data ;;
      let id := dict_get "id" req in
      method_name <- getitem "method" req ;;
      match method_name with
      | PList _ => Raise (TypeError "unhashable type: 'list'")
      | PDict _ => Raise (TypeError "unhashable type: 'dict'")
      | PStr name =>
          match dict_lookup name (method_registry self) with
          | None => method_not_found self method_name id
          | Some method =>
              let params := dict_get "params" req in
              call_py_try self req has_id id name method params options
          end
      | _ => method_not_found self method_name id
      end
  end.

(** [JSONRPCService.call], over the two functions of the [json] module:
    [json_loads] returns the decoded value, or the text of the
    [ValueError] it raises; [json_dumps] serialises a value. *)
Section Transport.
Variable json_loads : string -> string + pyval.
Variable json_dumps : pyval -> string.

Definition call (self : JSONRPCService) (jsondata : string) (options : pyval)
  : outcome (option string) :=
  match json_loads jsondata with
  | inl err =>
      error <- make_jsonrpc_error (PInt (-32700)) None (PDict [ ("message", PStr err) ]) ;;
      let resp := make_jsonrpc_error_response (PDict error) PNone in
      Return (Some (json_dumps resp))
  | inr request_data =>
      result <- call_py self request_data options ;;
      if negb (is_none result) then Return (Some (json_dumps result))
      else Return None
  end.
End Transport.

(** ** Reading a response *)

(** [v[k1][k2]...] when every step is a [dict] holding the key. *)
Fixpoint at_path (ks : list string) (v : pyval) : option pyval :=
  match ks with
  | [] => Some v
  | k :: rest =>
      match v with
      | PDict d =>
          match dict_lookup k d with
          | Some v' => at_path rest v'
          | None => None
          end
      | _ => None
      end
  end.

(** [k in v] for a response. *)
Definition has_member (k : string) (v : pyval) : bool :=
  match at_path [k] v with Some _ => true | None => false end.

(** ** A small service for the examples *)

Module Demo.

(** A structural validator: an object with [version] "1.1", a [str]
    [method] and, when present, an array or object as [params].  It puts
    no constraint on [id]. *)
Definition request_shape (req : pyval) : outcome unit :=
  match req with
  | PDict d =>
      match dict_lookup "version" d, dict_lookup "method" d with
      | Some (PStr v), Some (PStr _) =>
          if String.eqb v "1.1" then
            match dict_lookup "params" d with
            | None | Some (PList _) | Some (PDict _) => Return tt
            | Some p =>
                Raise (SchemaError (PStr "params is not an array or object")
                                   (PList [PStr "params"]) p)
            end
          else Raise (SchemaError (PStr "version is not 1.1") (PList [PStr "version"]) (PStr v))
      | _, _ => Raise (SchemaError (PStr "version and method are required") (PList []) req)
      end
  | _ => Raise (SchemaError (PStr "request is not an object") (PList []) req)
  end.

(** A schema set that declares nothing. *)
Definition no_schemas : Validation :=
  {| has_params_validation := fun _ => false;
     has_absent_params_validation := fun _ => false;
     validate_params := fun _ _ => Return tt;
     validate_absent_params := fun _ => Return tt;
     has_result_validation := fun _ => false;
     has_absent_result_validation := fun _ => false;
     validate_result := fun _ _ => Return tt |}.

(** The system schema set: [system.describe] takes no parameters and has a
    result schema that accepts every value. *)
Definition system_schemas : Validation :=
  {| has_params_validation := fun _ => false;
     has_absent_params_validation := fun m => String.eqb m "system.describe";
     validate_params := fun _ _ => Return tt;
     validate_absent_params := fun _ => Return tt;
     has_result_validation := fun m => String.eqb m "system.describe";
     has_absent_result_validation := fun _ => false;
     validate_result := fun _ _ => Return tt |}.

(** A service schema set for [add]: two parameters, an [int] result. *)
Definition sum_schemas : Validation :=
  {| has_params_validation := fun m => String.eqb m "add";
     has_absent_params_validation := fun _ => false;
     validate_params := fun _ _ => Return tt;
     validate_absent_params := fun _ => Return tt;
     has_result_validation := fun m => String.eqb m "add";
     has_absent_result_validation := fun _ => false;
     validate_result := fun _ r =>
       match r with
       | PInt _ => Return tt
       | _ => Raise (SchemaError (PStr "result is not an integer") (PList []) r)
       end |}.

(** [def add(params, options): return params[0] + params[1]] *)
Definition add_func : PyFunction :=
  {| func_name := "add";
     func_body := fun params _ =>
       match params with
       | PList [PInt a; PInt b] => Return (PInt (a + b))
       | _ => Raise (TypeError "unsupported operand")
       end |}.

(** A handler whose result breaks the [int] result schema. *)
Definition text_func : PyFunction :=
  {| func_name := "add"; func_body := fun _ _ => Return (PStr "five") |}.

(** Handlers that raise. *)
Definition raiser (name : string) (e : exn) : PyFunction :=
  {| func_name := name; func_body := fun _ _ => Raise e |}.

Definition describe_json : pyval := PDict [ ("name", PStr "demo") ].

(** A service with no schema directory. *)
Definition bare : JSONRPCService :=
  init request_shape None system_schemas describe_json false.

Definition with_method (self : JSONRPCService) (f : PyFunction) : JSONRPCService :=
  snd (add self f None).

Definition request (method : string) (rest : dict pyval) : pyval :=
  PDict (("version", PStr "1.1") :: ("method", PStr method) :: rest).

(** The service of the examples: no schemas, the handler [add]. *)
Definition plain : JSONRPCService := with_method bare add_func.

(** A service that validates results, with a handler whose result breaks
    the schema. *)
Definition strict : JSONRPCService :=
  with_method (init request_shape (Some sum_schemas) system_schemas describe_json true)
              text_func.

(** A service whose handlers raise: a plain fault, two application errors
    with codes in the reserved band, and a protocol error with such a
    code. *)
Definition fault : exn :=
  PlainException "ValueError" "bad value"
    [ "Traceback (most recent call last):"; "ValueError: bad value" ].

Definition raising : JSONRPCService :=
  with_method
    (with_method
       (with_method
          (with_method bare (raiser "boom" fault))
          (raiser "collide" (APIError (-32050) (Some "mine") None)))
       (raiser "collide1" (APIError (-32001) (Some "mine") None)))
    (raiser "refuse"
       (JSONRPCError (-32050) (Some "refused") (Some [ ("detail", PStr "x") ]))).

(** A service that validates results against [sum_schemas], which declare
    nothing for [system.describe]. *)
Definition checked : JSONRPCService :=
  init request_shape (Some sum_schemas) system_schemas describe_json true.

Definition sum_params : dict pyval := [ ("params", PList [PInt 2; PInt 3]) ].

(** [{"version": "1.1", "method": "add", "params": [2, 3], "id": 1}] *)
Definition sum_request : pyval := request "add" (sum_params ++ [ ("id", PInt 1) ])%list.

(** The same request as a notification: no [id]. *)
Definition sum_notification : pyval := request "add" sum_params.

(** [json.loads] known on the texts of a table; any other text is taken
    as malformed. *)
Fixpoint loads_table (table : list (string * pyval)) (text : string) : string + pyval :=
  match table with
  | [] => inl "Expecting value: line 1 column 1 (char 0)"
  | (t, v) :: rest => if String.eqb text t then inr v else loads_table rest text
  end.

(** [json.dumps] with its default separators, for texts of printable
    ASCII: only the quote and the backslash are escaped. *)
Definition dquote : ascii := ascii_of_nat 34.
Definition backslash : ascii := ascii_of_nat 92.

Fixpoint escape (s : string) : string :=
  match s with
  | EmptyString => EmptyString
  | String c rest =>
      if Ascii.eqb c dquote || Ascii.eqb c backslash
      then String backslash (String c (escape rest))
      else String c (escape rest)
  end.

Definition quote (s : string) : string :=
  String dquote (escape s ++ String dquote EmptyString).

Fixpoint dumps (v : pyval) : string :=
  match v with
  | PNone => "null"
  | PBool true => "true"
  | PBool false => "false"
  | PInt z => NilZero.string_of_int (Z.to_int z)
  | PStr s => quote s
  | PList l => "[" ++ String.concat ", " (map dumps l) ++ "]"
  | PDict d =>
      "{" ++ String.concat ", "
               (map (fun kv => match kv with (k, x) => quote k ++ ": " ++ dumps x end) d)
          ++ "}"
  end.

(** A service schema set that reports violations the way the lifecycle
    expects them, as [InvalidParamsError]: [add] takes two parameters and
    returns an [int]; [log] and [note] take no parameters and return
    nothing. *)
Definition quiet (m : string) : bool := String.eqb m "log" || String.eqb m "note".

Definition pair_schemas : Validation :=
  {| has_params_validation := fun m => String.eqb m "add";
     has_absent_params_validation := quiet;
     validate_params := fun _ p =>
       match p with
       | PList [_; _] => Return tt
       | _ => Raise (InvalidParamsError
                       (Some [ ("message", PStr "two parameters expected");
                               ("path", PList []); ("value", p) ]))
       end;
     validate_absent_params := fun _ => Return tt;
     has_result_validation := fun m => String.eqb m "add" || quiet m;
     has_absent_result_validation := quiet;
     validate_result := fun _ r =>
       match r with
       | PInt _ => Return tt
       | _ => Raise (SchemaError (PStr "result is not an integer") (PList []) r)
       end |}.

Definition returning (name : string) (v : pyval) : PyFunction :=
  {| func_name := name; func_body := fun _ _ => Return v |}.

(** A service with schemas and result validation: [add], [log] (returns
    [None]), [note] (returns a value against its schema) and [boom], for
    which no schema is declared. *)
Definition validated : JSONRPCService :=
  with_method
    (with_method
       (with_method
          (with_method
             (init request_shape (Some pair_schemas) system_schemas describe_json true)
             add_func)
          (returning "log" PNone))
       (returning "note" (PStr "done")))
    (raiser "boom" fault).

(** A handler that raises an application error with a code of its own. *)
Definition billing : JSONRPCService :=
  with_method bare
    (raiser "pay" (APIError 100 (Some "card declined") (Some [ ("retry", PBool false) ]))).

(** The decoder of the examples knows the two requests above. *)
Definition loads : string -> string + pyval :=
  loads_table [ (dumps sum_request, sum_request);
                (dumps sum_notification, sum_notification) ].

End Demo.

(** ** errors.py: the predefined error classes *)

(** The classes that keep [JSONRPCError.__init__]: each is its class
    attributes [code] and [message].  [JSONRPCError_base] is the class
    [JSONRPCError] itself; [CustomServerError] overrides nothing. *)
Inductive error_class : Type :=
| JSONRPCError_base
| ParseError
| InvalidRequestError
| MethodNotFoundError
| InternalError
| ServerError
| CustomServerError.

Definition class_code (cls : error_class) : Z :=
  match cls with
  | JSONRPCError_base => 0
  | ParseError => -32700
  | InvalidRequestError => -32600
  | MethodNotFoundError => -32601
  | InternalError => -32603
  | ServerError => -32000
  | CustomServerError => 0
  end.

Definition class_message (cls : error_class) : option string :=
  match cls with
  | JSONRPCError_base => None
  | ParseError => Some "Parse error"
  | InvalidRequestError => Some "Invalid request"
  | MethodNotFoundError => Some "Method not found"
  | InternalError => Some "Internal error"
  | ServerError => Some "Server error"
  | CustomServerError => None
  end.

(** [cls(message)]: [JSONRPCError.__init__] replaces the class's message
    when [message is not None]; [data] stays the class attribute [None]. *)
Definition new_error (cls : error_class) (message : option string) : exn :=
  JSONRPCError (class_code cls)
               (match message with
                | Some m => Some m
                | None => class_message cls
                end)
               None.

(** ** Setting a service up *)

(** A run of [add] calls, as a setup script makes them; a call that raises
    leaves the service as it was. *)
Definition add_all (self : JSONRPCService) (calls : list (PyFunction * option string))
  : JSONRPCService :=
  fold_left (fun s c => snd (add s (fst c) (snd c))) calls self.

(** The schema set [do_method] consults for a method name. *)
Definition params_validator (self : JSONRPCService) (method_name : string)
  : option Validation :=
  if String.prefix "system." method_name
  then Some (system_validation self)
  else service_validation self.

(** * Properties *)

Unset Implicit Arguments.

(** ** Dictionaries *)

Section DictFacts.
Variable V : Type.
Implicit Types (d : dict V) (k : string) (v : V).

Lemma dict_lookup_set_eq d k v : dict_lookup k (dict_set k v d) = Some v.
Proof.
  induction d as [|[k' v'] rest IH]; simpl.
  - now rewrite String.eqb_refl.
  - destruct (String.eqb k k') eqn:E; simpl; rewrite E; auto.
Qed.

Lemma dict_lookup_set_neq d k k' v :
  k <> k' -> dict_lookup k' (dict_set k v d) = dict_lookup k' d.
Proof.
  intros Hne. induction d as [|[k0 v0] rest IH]; simpl.
  - destruct (String.eqb k' k) eqn:E; auto.
    apply String.eqb_eq in E. congruence.
  - destruct (String.eqb k k0) eqn:E; simpl.
    + apply String.eqb_eq in E. subst k0.
      destruct (String.eqb k' k) eqn:E'; auto.
      apply String.eqb_eq in E'. congruence.
    + now rewrite IH.
Qed.

Lemma dict_set_fresh d k v :
  dict_lookup k d = None -> dict_set k v d = (d ++ [(k, v)])%list.
Proof.
  induction d as [|[k' v'] rest IH]; simpl; auto.
  destruct (String.eqb k k'); [discriminate|].
  intros H. now rewrite IH.
Qed.

Lemma dict_mem_false d k : dict_mem k d = false -> dict_lookup k d = None.
Proof. unfold dict_mem. now destruct (dict_lookup k d). Qed.

Lemma dict_mem_true d k : dict_mem k d = true -> exists v, dict_lookup k d = Some v.
Proof. unfold dict_mem. destruct (dict_lookup k d); [eauto | discriminate]. Qed.

Lemma dict_keys_complete d k : dict_mem k d = true -> In k (dict_keys d).
Proof.
  unfold dict_mem, dict_keys.
  induction d as [|[k' v'] rest IH]; simpl; [discriminate|].
  destruct (String.eqb k k') eqn:E.
  - apply String.eqb_eq in E. auto.
  - auto.
Qed.
End DictFacts.

(** ** Envelopes *)

Lemma at_path_error_response ks error id :
  at_path ("error" :: ks) (make_jsonrpc_error_response error id) = at_path ks error.
Proof. unfold make_jsonrpc_error_response. now destruct (is_none id). Qed.

Lemma at_path_id_response error id :
  at_path ["id"] (make_jsonrpc_error_response error id)
  = if is_none id then None else Some id.
Proof. unfold make_jsonrpc_error_response. now destruct (is_none id). Qed.

(** [make_error_response] on an error object whose [error] member is a
    [dict]: the entry [method] is written into it. *)
Lemma make_error_response_data name id hd code message data :
  make_error_response name id
    [ ("name", hd); ("code", code); ("message", message); ("error", PDict data) ]
  = Return (make_jsonrpc_error_response
              (PDict [ ("name", hd); ("code", code); ("message", message);
                       ("error", PDict (dict_set "method" (PStr name) data)) ]) id).
Proof. reflexivity. Qed.

(** Without an [error] member, one is created to hold the entry. *)
Lemma make_error_response_no_data name id hd code message :
  make_error_response name id [ ("name", hd); ("code", code); ("message", message) ]
  = Return (make_jsonrpc_error_response
              (PDict [ ("name", hd); ("code", code); ("message", message);
                       ("error", PDict [ ("method", PStr name) ]) ]) id).
Proof. reflexivity. Qed.

(** ** Reaching the stages of the lifecycle *)

(** A structurally valid request that names a registered method runs the
    [try] statement. *)
Lemma call_py_resolved self d options name method :
  jsonrpc_schemas self (PDict d) = Return tt ->
  dict_lookup "method" d = Some (PStr name) ->
  dict_lookup name (method_registry self) = Some method ->
  call_py self (PDict d) options
  = call_py_try self d (dict_mem "id" d) (dict_get "id" d) name method
                (dict_get "params" d) options.
Proof.
  intros Hv Hm Hr. unfold call_py. rewrite Hv. simpl.
  unfold getitem. rewrite Hm. simpl. now rewrite Hr.
Qed.

(** A structurally valid request that names an unregistered method. *)
Lemma call_py_unresolved self d options name :
  jsonrpc_schemas self (PDict d) = Return tt ->
  dict_lookup "method" d = Some (PStr name) ->
  dict_lookup name (method_registry self) = None ->
  call_py self (PDict d) options
  = Return (make_jsonrpc_error_response
      (PDict [ ("name", PStr "JSONRPCError"); ("code", PInt (-32601));
               ("message", PStr "Method not found");
               ("error", PDict [ ("method", PStr name);
                                 ("available_methods",
                                  PList (map PStr (dict_keys (method_registry self)))) ]) ])
      (dict_get "id" d)).
Proof.
  intros Hv Hm Hr. unfold call_py. rewrite Hv. simpl.
  unfold getitem. rewrite Hm. simpl. now rewrite Hr.
Qed.

(** ** The method registry *)

Lemma init_binds_system_describe rs sv sys desc flag :
  dict_mem "system.describe" (method_registry (init rs sv sys desc flag)) = true.
Proof. reflexivity. Qed.

(** C9.  [add] under a name that is already bound raises
    [DuplicateMethodName] and leaves the service, hence its registry, as it
    was; under an unbound name it returns and binds the name to the
    handler, last in the registry, keeping every other binding.  The name
    [system.describe] is bound from construction on, so [add] under it
    raises on a new service. *)
Theorem add_duplicate_or_bind :
  forall (self : JSONRPCService) (func : PyFunction) (name : option string),
    (dict_mem (function_name func name) (method_registry self) = true ->
       exists msg,
         add self func name = (Raise (DuplicateMethodName msg), self))
    /\ (dict_mem (function_name func name) (method_registry self) = false ->
          fst (add self func name) = Return tt
          /\ dict_lookup (function_name func name)
                         (method_registry (snd (add self func name)))
             = Some {| call_method := func_body func |}
          /\ (forall k, k <> function_name func name ->
                dict_lookup k (method_registry (snd (add self func name)))
                = dict_lookup k (method_registry self))
          /\ dict_keys (method_registry (snd (add self func name)))
             = (dict_keys (method_registry self) ++ [function_name func name])%list)
    /\ (forall rs sv sys desc flag,
          exists msg,
            add (init rs sv sys desc flag) func (Some "system.describe")
            = (Raise (DuplicateMethodName msg), init rs sv sys desc flag)).
Proof.
  intros self func name. split; [|split].
  - intros Hb. unfold add. rewrite Hb. eauto.
  - intros Hu. unfold add. rewrite Hu. simpl. repeat split.
    + apply dict_lookup_set_eq.
    + intros k Hk. apply dict_lookup_set_neq. congruence.
    + rewrite dict_set_fresh by now apply dict_mem_false.
      unfold dict_keys. now rewrite map_app.
  - intros. unfold add. simpl. eauto.
Qed.

Lemma add_duplicate_or_bind_witness :
  (exists msg,
     add Demo.plain Demo.text_func (Some "add")
     = (Raise (DuplicateMethodName msg), Demo.plain))
  /\ fst (add Demo.bare Demo.add_func None) = Return tt
  /\ dict_keys (method_registry (snd (add Demo.bare Demo.add_func None)))
     = [ "system.describe"; "add" ].
Proof.
  split.
  - apply (proj1 (add_duplicate_or_bind Demo.plain Demo.text_func (Some "add"))).
    reflexivity.
  - pose proof (proj1 (proj2 (add_duplicate_or_bind Demo.bare Demo.add_func None))
                      eq_refl) as [Hret [_ [_ Hkeys]]].
    split; [exact Hret | exact Hkeys].
Defined.

(** ** Method resolution *)

(** C8.  The claim is that a request naming a method absent from the
    registry gets an error envelope with code -32601 whose diagnostic data
    holds the requested name and the names of all registered methods, and
    that echoes the request's id.  On the code the code, the name and the
    list are as claimed, a request without [id] gets an envelope without
    one, and an [id] that is not null is echoed; but
    [make_jsonrpc_error_response] tests [id is not None], so for a request
    whose [id] is null the envelope has no [id] member. *)
Theorem unknown_method_envelope :
  forall (self : JSONRPCService) (d : dict pyval) (options : pyval) (name : string),
    jsonrpc_schemas self (PDict d) = Return tt ->
    dict_lookup "method" d = Some (PStr name) ->
    dict_lookup name (method_registry self) = None ->
    exists resp,
      call_py self (PDict d) options = Return resp
      /\ at_path ["error"; "code"] resp = Some (PInt (-32601))
      /\ at_path ["error"; "message"] resp = Some (PStr "Method not found")
      /\ at_path ["error"; "error"; "method"] resp = Some (PStr name)
      /\ at_path ["error"; "error"; "available_methods"] resp
         = Some (PList (map PStr (dict_keys (method_registry self))))
      /\ (forall n, dict_mem n (method_registry self) = true ->
            In (PStr n) (map PStr (dict_keys (method_registry self))))
      /\ (forall id, dict_lookup "id" d = Some id -> id <> PNone ->
            at_path ["id"] resp = Some id)
      /\ (dict_lookup "id" d = None -> at_path ["id"] resp = None)
      /\ (dict_lookup "id" d = Some PNone ->
            has_member "id" (PDict d) = true /\ has_member "id" resp = false)
      /\ at_path ["result"] resp = None.
Proof.
  intros self d options name Hv Hm Hr.
  eexists. split; [apply (call_py_unresolved self d options name Hv Hm Hr)|].
  unfold has_member.
  rewrite !at_path_error_response, !at_path_id_response.
  repeat split; try reflexivity.
  - intros n Hn. apply in_map. now apply dict_keys_complete in Hn.
  - intros id Hid Hnn. unfold dict_get. rewrite Hid.
    destruct id; simpl; congruence.
  - intros Hno. unfold dict_get. now rewrite Hno.
  - simpl. now rewrite H.
  - unfold dict_get. now rewrite H.
  - unfold make_jsonrpc_error_response. now destruct (is_none (dict_get "id" d)).
Qed.

Lemma unknown_method_envelope_witness :
  exists resp,
    call_py Demo.plain (Demo.request "missing" [ ("id", PNone) ]) PNone = Return resp
    /\ at_path ["error"; "code"] resp = Some (PInt (-32601))
    /\ at_path ["error"; "error"; "method"] resp = Some (PStr "missing")
    /\ at_path ["error"; "error"; "available_methods"] resp
       = Some (PList [ PStr "system.describe"; PStr "add" ])
    /\ has_member "id" (Demo.request "missing" [ ("id", PNone) ]) = true
    /\ has_member "id" resp = false.
Proof.
  destruct (unknown_method_envelope Demo.plain
              ([ ("version", PStr "1.1"); ("method", PStr "missing"); ("id", PNone) ])
              PNone "missing" eq_refl eq_refl eq_refl)
    as [resp [Hc [Hcode [_ [Hm [Ha [_ [_ [_ [Hnull _]]]]]]]]]].
  exists resp. repeat split; auto; apply Hnull; reflexivity.
Defined.

(** ** The [try] statement *)

(** The three clauses for [JSONRPCError], [APIError] and [Exception] always
    produce an envelope.  The clause for [SchemaError] never does: it calls
    [make_jsonrpc_error] with the violation [dict] in the place of the
    code, and [RPC_ERRORS[code]] raises [TypeError] on an unhashable key.
    Nothing catches an exception raised inside an [except] clause. *)
Lemma call_py_try_returns_or_schema self d has_id id name method params options :
  (exists resp,
     call_py_try self d has_id id name method params options = Return resp)
  \/ (exists message path value,
        (result <- do_method self name method params options ;;
         result <- do_result self name result ;;
         make_result_response has_id d result)
        = Raise (SchemaError message path value)
        /\ call_py_try self d has_id id name method params options
           = Raise (TypeError "unhashable type: 'dict'")).
Proof.
  unfold call_py_try.
  destruct (result <- do_method self name method params options ;;
            result <- do_result self name result ;;
            make_result_response has_id d result)
    as [resp | [message path value | code message data | code message data
                | cls text trace]].
  - left. eauto.
  - right. exists message, path, value. split; reflexivity.
  - left. destruct data; eexists; reflexivity.
  - left. destruct (reserved_code code); [eexists; reflexivity|].
    destruct data; eexists; reflexivity.
  - left. eexists. reflexivity.
Qed.

(** The same, seen from the [except SchemaError] clause alone. *)
Lemma schema_error_clause_raises name id message path value :
  (error <- make_jsonrpc_error
              (PDict [ ("message", message); ("path", path); ("value", value) ])
              None PNone ;;
   make_error_response name id error)
  = Raise (TypeError "unhashable type: 'dict'").
Proof. reflexivity. Qed.

(** C1.  The claim is that [call_py], and so [call], never raises.  On the
    service [Demo.strict], whose handler returns a [str] where the result
    schema wants an [int], the result validator reports the violation and
    [call_py] raises [TypeError]; [call] on the text of the same request
    raises it too. *)
Theorem call_py_raises_on_result_violation :
  call_py Demo.strict Demo.sum_request PNone
  = Raise (TypeError "unhashable type: 'dict'")
  /\ call Demo.loads Demo.dumps Demo.strict (Demo.dumps Demo.sum_request) PNone
     = Raise (TypeError "unhashable type: 'dict'").
Proof. split; vm_compute; reflexivity. Qed.

(** C2.  The claim is that a result that violates its schema yields a
    schema-error envelope carrying the violation's message, path and
    value.  On the code no envelope is returned: whenever the result
    validator raises [SchemaError] for the value the method returned,
    [call_py] raises [TypeError]. *)
Theorem result_violation_escapes :
  forall (self : JSONRPCService) (d : dict pyval) (options : pyval)
         (name : string) (method : Method) (sv : Validation)
         (r message path value : pyval),
    jsonrpc_schemas self (PDict d) = Return tt ->
    dict_lookup "method" d = Some (PStr name) ->
    dict_lookup name (method_registry self) = Some method ->
    validate_result_flag self = true ->
    service_validation self = Some sv ->
    has_result_validation sv name = true ->
    has_absent_result_validation sv name = false ->
    do_method self name method (dict_get "params" d) options = Return r ->
    validate_result sv name r = Raise (SchemaError message path value) ->
    call_py self (PDict d) options = Raise (TypeError "unhashable type: 'dict'").
Proof.
  intros self d options name method sv r message path value
         Hv Hm Hr Hflag Hsv Hres Habs Hdo Hviol.
  rewrite (call_py_resolved self d options name method Hv Hm Hr).
  unfold call_py_try. rewrite Hdo. simpl.
  unfold do_result. rewrite Hflag, Hsv, Hres, Habs, Hviol. reflexivity.
Qed.

Lemma result_violation_escapes_witness :
  call_py Demo.strict
          (PDict [ ("version", PStr "1.1"); ("method", PStr "add");
                   ("params", PList [PInt 2; PInt 3]); ("id", PInt 1) ])
          PNone
  = Raise (TypeError "unhashable type: 'dict'").
Proof.
  apply (result_violation_escapes Demo.strict _ PNone "add"
           {| call_method := func_body Demo.text_func |} Demo.sum_schemas
           (PStr "five") (PStr "result is not an integer") (PList []) (PStr "five"));
    reflexivity.
Defined.

(** ** Notifications *)

(** C3, as claimed: a notification whose lifecycle succeeds gets no
    output.  On the code the notification [Demo.sum_notification] gets the
    success envelope, serialised. *)
Lemma notification_gets_response :
  has_member "id" Demo.sum_notification = false
  /\ call_py Demo.plain Demo.sum_notification PNone
     = Return (PDict [ ("version", PStr "1.1"); ("result", PInt 5) ])
  /\ call Demo.loads Demo.dumps Demo.plain (Demo.dumps Demo.sum_notification) PNone
     = Return (Some (Demo.dumps (PDict [ ("version", PStr "1.1"); ("result", PInt 5) ])))
  /\ call Demo.loads Demo.dumps Demo.plain (Demo.dumps Demo.sum_notification) PNone
     <> Return None.
Proof. repeat split; try (vm_compute; reflexivity). vm_compute. discriminate. Qed.

(** C3, amended.  For a request without an [id] key whose lifecycle
    succeeds with result [r], [call] returns the serialised envelope
    [{"version": "1.1", "result": r}], which has no [id] member. *)
Theorem call_notification_returns_response :
  forall (json_loads : string -> string + pyval) (json_dumps : pyval -> string)
         (self : JSONRPCService) (text : string) (d : dict pyval)
         (options : pyval) (name : string) (method : Method) (r0 r : pyval),
    json_loads text = inr (PDict d) ->
    jsonrpc_schemas self (PDict d) = Return tt ->
    dict_mem "id" d = false ->
    dict_lookup "method" d = Some (PStr name) ->
    dict_lookup name (method_registry self) = Some method ->
    do_method self name method (dict_get "params" d) options = Return r0 ->
    do_result self name r0 = Return r ->
    call json_loads json_dumps self text options
    = Return (Some (json_dumps (PDict [ ("version", PStr "1.1"); ("result", r) ])))
    /\ has_member "id" (PDict [ ("version", PStr "1.1"); ("result", r) ]) = false.
Proof.
  intros json_loads json_dumps self text d options name method r0 r
         Hl Hv Hid Hm Hr Hdo Hres.
  split; [|reflexivity].
  unfold call. rewrite Hl.
  rewrite (call_py_resolved self d options name method Hv Hm Hr).
  unfold call_py_try. rewrite Hdo. simpl. rewrite Hres. simpl.
  rewrite Hid. reflexivity.
Qed.

Lemma call_notification_returns_response_witness :
  call Demo.loads Demo.dumps Demo.plain (Demo.dumps Demo.sum_notification) PNone
  = Return (Some (Demo.dumps (PDict [ ("version", PStr "1.1"); ("result", PInt 5) ]))).
Proof.
  apply (call_notification_returns_response Demo.loads Demo.dumps Demo.plain
           (Demo.dumps Demo.sum_notification)
           [ ("version", PStr "1.1"); ("method", PStr "add");
             ("params", PList [PInt 2; PInt 3]) ]
           PNone "add" {| call_method := func_body Demo.add_func |}
           (PInt 5) (PInt 5));
    vm_compute; reflexivity.
Defined.

(** ** Exceptions raised during invocation *)

(** What the [try] statement returns once [do_method] has raised. *)
Lemma call_py_method_raises self d options name method e :
  jsonrpc_schemas self (PDict d) = Return tt ->
  dict_lookup "method" d = Some (PStr name) ->
  dict_lookup name (method_registry self) = Some method ->
  do_method self name method (dict_get "params" d) options = Raise e ->
  call_py self (PDict d) options
  = match e with
    | SchemaError _ _ _ => Raise (TypeError "unhashable type: 'dict'")
    | JSONRPCError code message data =>
        make_error_response name (dict_get "id" d) (JSONRPCError_to_json code message data)
    | APIError code message data =>
        if reserved_code code then
          make_error_response name (dict_get "id" d)
            (JSONRPCError_to_json (-32001) (Some "Reserved Error Code")
                                  (Some [ ("bad_code", PInt code) ]))
        else
          make_error_response name (dict_get "id" d) (APIError_to_json code message data)
    | PlainException _ text trace =>
        Return (make_jsonrpc_error_response
          (PDict [ ("name", PStr "JSONRPCError"); ("code", PInt (-32002));
                   ("message", PStr "Exception calling method");
                   ("error",
                    PDict [ ("message",
                             PStr "An unexpected exception was caught executing the method");
                            ("exception_message", PStr text);
                            ("traceback", PList (map PStr trace));
                            ("method", PStr name) ]) ])
          (dict_get "id" d))
    end.
Proof.
  intros Hv Hm Hr Hdo.
  rewrite (call_py_resolved self d options name method Hv Hm Hr).
  unfold call_py_try. rewrite Hdo.
  destruct e as [message path value | code message data | code message data
                 | cls text trace]; reflexivity.
Qed.

(** With no schema set consulted, [do_method] is the handler call: what
    the handler raises is what [do_method] raises. *)
Lemma do_method_unvalidated self name method params options :
  String.prefix "system." name = false ->
  service_validation self = None ->
  do_method self name method params options = call_method method params options.
Proof. intros Hp Hs. unfold do_method. now rewrite Hp, Hs. Qed.




(** C5, as claimed: for every colliding code the returned code is never
    the handler's.  The handler [collide1] of [Demo.raising] raises an
    [APIError] with the reserved code -32001, and the envelope's code is
    -32001. *)
Lemma reserved_collision_keeps_32001 :
  exists resp,
    call_py Demo.raising (Demo.request "collide1" [ ("id", PInt 7) ]) PNone = Return resp
    /\ reserved_code (-32001) = true
    /\ at_path ["error"; "error"; "bad_code"] resp = Some (PInt (-32001))
    /\ at_path ["error"; "code"] resp = Some (PInt (-32001)).
Proof. eexists. split; [vm_compute; reflexivity|]. repeat split. Qed.

(** C5, amended.  When the invocation raises an [APIError] whose code lies
    in [-32768, -32000], [call_py] returns an envelope with code -32001 and
    message "Reserved Error Code" whose diagnostic data holds the handler's
    code as [bad_code]; the returned code differs from the handler's
    whenever the handler's code is not -32001 itself. *)
Theorem reserved_api_code_remapped :
  forall (self : JSONRPCService) (d : dict pyval) (options : pyval)
         (name : string) (method : Method)
         (code : Z) (message : option string) (data : option (dict pyval)),
    jsonrpc_schemas self (PDict d) = Return tt ->
    dict_lookup "method" d = Some (PStr name) ->
    dict_lookup name (method_registry self) = Some method ->
    -32768 <= code <= -32000 ->
    do_method self name method (dict_get "params" d) options
    = Raise (APIError code message data) ->
    exists resp,
      call_py self (PDict d) options = Return resp
      /\ at_path ["error"; "code"] resp = Some (PInt (-32001))
      /\ at_path ["error"; "message"] resp = Some (PStr "Reserved Error Code")
      /\ at_path ["error"; "error"; "bad_code"] resp = Some (PInt code)
      /\ at_path ["error"; "error"; "method"] resp = Some (PStr name)
      /\ (code <> -32001 -> at_path ["error"; "code"] resp <> Some (PInt code)).
Proof.
  intros self d options name method code message data Hv Hm Hr Hband Hdo.
  assert (Hres : reserved_code code = true).
  { unfold reserved_code. apply andb_true_intro. split.
    - apply Z.geb_le. lia.
    - apply Z.leb_le. lia. }
  eexists. split.
  - rewrite (call_py_method_raises self d options name method _ Hv Hm Hr Hdo).
    rewrite Hres. reflexivity.
  - rewrite !at_path_error_response. repeat split.
    simpl. intros Hne Heq. apply Hne. congruence.
Qed.

Lemma reserved_api_code_remapped_witness :
  exists resp,
    call_py Demo.raising (Demo.request "collide" [ ("id", PInt 7) ]) PNone = Return resp
    /\ at_path ["error"; "code"] resp = Some (PInt (-32001))
    /\ at_path ["error"; "error"; "bad_code"] resp = Some (PInt (-32050))
    /\ at_path ["error"; "code"] resp <> Some (PInt (-32050)).
Proof.
  destruct (reserved_api_code_remapped Demo.raising
              [ ("version", PStr "1.1"); ("method", PStr "collide"); ("id", PInt 7) ]
              PNone "collide"
              {| call_method :=
                   func_body (Demo.raiser "collide" (APIError (-32050) (Some "mine") None)) |}
              (-32050) (Some "mine") None
              eq_refl eq_refl eq_refl ltac:(lia) eq_refl)
    as [resp [Hc [Hcode [_ [Hbad [_ Hne]]]]]].
  exists resp. repeat split; auto.
  apply Hne. lia.
Defined.

(** C10, as claimed: the data of a protocol error is returned unchanged.
    The handler [refuse] of [Demo.raising] raises a [JSONRPCError] whose
    data is [{"detail": "x"}]; the envelope's data has the entry [method]
    too. *)
Lemma protocol_error_data_gains_method :
  exists resp,
    call_py Demo.raising (Demo.request "refuse" [ ("id", PInt 7) ]) PNone = Return resp
    /\ at_path ["error"; "error"] resp
       = Some (PDict [ ("detail", PStr "x"); ("method", PStr "refuse") ])
    /\ at_path ["error"; "error"] resp <> Some (PDict [ ("detail", PStr "x") ]).
Proof.
  eexists. split; [vm_compute; reflexivity|].
  split; [reflexivity | discriminate].
Qed.

(** C10, amended.  When the invocation raises a [JSONRPCError], the
    envelope's error object has that exception's code, whatever it is
    (no code is intercepted, reserved band or not), and its message
    ([str(message)]); its data is the exception's data with the entry
    [method] set to the method name, every other entry as it was, and
    holds that entry alone when the exception has no data. *)
Theorem protocol_error_forwarded :
  forall (self : JSONRPCService) (d : dict pyval) (options : pyval)
         (name : string) (method : Method)
         (code : Z) (message : option string) (data : option (dict pyval)),
    jsonrpc_schemas self (PDict d) = Return tt ->
    dict_lookup "method" d = Some (PStr name) ->
    dict_lookup name (method_registry self) = Some method ->
    do_method self name method (dict_get "params" d) options
    = Raise (JSONRPCError code message data) ->
    exists resp,
      call_py self (PDict d) options = Return resp
      /\ at_path ["error"; "name"] resp = Some (PStr "JSONRPCError")
      /\ at_path ["error"; "code"] resp = Some (PInt code)
      /\ at_path ["error"; "message"] resp = Some (PStr (str_of_opt message))
      /\ at_path ["error"; "error"] resp
         = Some (PDict (dict_set "method" (PStr name)
                                 (match data with Some x => x | None => [] end)))
      /\ at_path ["error"; "error"; "method"] resp = Some (PStr name)
      /\ (forall k, k <> "method" ->
            at_path ["error"; "error"; k] resp
            = match data with Some x => dict_lookup k x | None => None end).
Proof.
  intros self d options name method code message data Hv Hm Hr Hdo.
  rewrite (call_py_method_raises self d options name method _ Hv Hm Hr Hdo).
  assert (Hresp :
    make_error_response name (dict_get "id" d) (JSONRPCError_to_json code message data)
    = Return (make_jsonrpc_error_response
        (PDict [ ("name", PStr "JSONRPCError"); ("code", PInt code);
                 ("message", PStr (str_of_opt message));
                 ("error", PDict (dict_set "method" (PStr name)
                                    (match data with Some x => x | None => [] end))) ])
        (dict_get "id" d))).
  { destruct data; reflexivity. }
  rewrite Hresp. eexists. split; [reflexivity|].
  rewrite !at_path_error_response. repeat split.
  - simpl. now rewrite dict_lookup_set_eq.
  - intros k Hk. rewrite at_path_error_response. simpl.
    rewrite dict_lookup_set_neq by congruence.
    destruct data as [x|]; [destruct (dict_lookup k x)|]; reflexivity.
Qed.

Lemma protocol_error_forwarded_witness :
  exists resp,
    call_py Demo.raising (Demo.request "refuse" [ ("id", PInt 7) ]) PNone = Return resp
    /\ at_path ["error"; "code"] resp = Some (PInt (-32050))
    /\ at_path ["error"; "message"] resp = Some (PStr "refused")
    /\ at_path ["error"; "error"; "detail"] resp = Some (PStr "x").
Proof.
  destruct (protocol_error_forwarded Demo.raising
              [ ("version", PStr "1.1"); ("method", PStr "refuse"); ("id", PInt 7) ]
              PNone "refuse"
              {| call_method :=
                   func_body (Demo.raiser "refuse"
                     (JSONRPCError (-32050) (Some "refused") (Some [ ("detail", PStr "x") ]))) |}
              (-32050) (Some "refused") (Some [ ("detail", PStr "x") ])
              eq_refl eq_refl eq_refl eq_refl)
    as [resp [Hc [_ [Hcode [Hmsg [_ [_ Hrest]]]]]]].
  exists resp. repeat split; auto.
  apply (Hrest "detail"). discriminate.
Defined.

(** ** The id of a response *)

(** A success envelope has an [id] member exactly when the request has the
    key, with the request's value, [None] included. *)
Lemma success_envelope_echoes_id self d options name method r0 r :
  jsonrpc_schemas self (PDict d) = Return tt ->
  dict_lookup "method" d = Some (PStr name) ->
  dict_lookup name (method_registry self) = Some method ->
  do_method self name method (dict_get "params" d) options = Return r0 ->
  do_result self name r0 = Return r ->
  exists resp,
    call_py self (PDict d) options = Return resp
    /\ at_path ["result"] resp = Some r
    /\ at_path ["id"] resp = dict_lookup "id" d
    /\ at_path ["error"] resp = None.
Proof.
  intros Hv Hm Hr Hdo Hres.
  rewrite (call_py_resolved self d options name method Hv Hm Hr).
  unfold call_py_try. rewrite Hdo. simpl. rewrite Hres. simpl.
  unfold make_result_response, getitem, dict_mem.
  destruct (dict_lookup "id" d) as [id|]; simpl; eexists; repeat split.
Qed.

(** C6.  The claim is that every response to a structurally valid request
    has an [id] member exactly when the request has the key, an explicit
    null included.  [make_result_response] tests the key ([has_id]);
    [make_jsonrpc_error_response] tests [id is not None], so an error
    envelope for a request whose [id] is null has no [id] member. *)
Theorem null_id_missing_from_error_envelope :
  forall (self : JSONRPCService) (d : dict pyval) (options : pyval) (name : string),
    jsonrpc_schemas self (PDict d) = Return tt ->
    dict_lookup "method" d = Some (PStr name) ->
    dict_lookup name (method_registry self) = None ->
    dict_lookup "id" d = Some PNone ->
    exists resp,
      call_py self (PDict d) options = Return resp
      /\ at_path ["error"; "code"] resp = Some (PInt (-32601))
      /\ has_member "id" (PDict d) = true
      /\ has_member "id" resp = false.
Proof.
  intros self d options name Hv Hm Hr Hid.
  eexists. split; [apply (call_py_unresolved self d options name Hv Hm Hr)|].
  unfold has_member. rewrite at_path_error_response, at_path_id_response.
  unfold dict_get. simpl. rewrite Hid. repeat split.
Qed.

Lemma null_id_missing_from_error_envelope_witness :
  exists resp,
    call_py Demo.plain (Demo.request "missing" [ ("id", PNone) ]) PNone = Return resp
    /\ has_member "id" (Demo.request "missing" [ ("id", PNone) ]) = true
    /\ has_member "id" resp = false.
Proof.
  destruct (null_id_missing_from_error_envelope Demo.plain
              [ ("version", PStr "1.1"); ("method", PStr "missing"); ("id", PNone) ]
              PNone "missing" eq_refl eq_refl eq_refl eq_refl)
    as [resp [Hc [_ [Hreq Hresp]]]].
  exists resp. auto.
Defined.

(** ** Which schema set validates a system method *)

(** Parameter validation of a method under [system.] reads the system
    schema set only. *)
Lemma do_method_system_schemas self self' name method params options :
  String.prefix "system." name = true ->
  system_validation self = system_validation self' ->
  do_method self name method params options
  = do_method self' name method params options.
Proof. intros Hp Hs. unfold do_method. now rewrite Hp, Hs. Qed.

(** Result validation reads the service's own schema set only, whatever
    the method's name. *)
Lemma do_result_service_schemas self self' name result :
  validate_result_flag self = validate_result_flag self' ->
  service_validation self = service_validation self' ->
  do_result self name result = do_result self' name result.
Proof. intros Hf Hs. unfold do_result. now rewrite Hf, Hs. Qed.

(** C7.  The claim is that a method under [system.] has its parameters
    and its result validated against the system schema set.  [do_method]
    selects that set; [do_result] reads [self.service_validation] for every
    method.  So with result validation enabled and a service schema set
    that declares no result for the system method, the call ends in an
    InvalidParams envelope, whatever the system schema set declares. *)
Theorem system_result_checked_by_service_schemas :
  forall (self : JSONRPCService) (d : dict pyval) (options : pyval)
         (name : string) (method : Method) (sv : Validation) (r : pyval),
    jsonrpc_schemas self (PDict d) = Return tt ->
    dict_lookup "method" d = Some (PStr name) ->
    dict_lookup name (method_registry self) = Some method ->
    String.prefix "system." name = true ->
    do_method self name method (dict_get "params" d) options = Return r ->
    validate_result_flag self = true ->
    service_validation self = Some sv ->
    has_result_validation sv name = false ->
    exists resp,
      call_py self (PDict d) options = Return resp
      /\ at_path ["error"; "code"] resp = Some (PInt (-32602))
      /\ at_path ["error"; "error"; "message"] resp
         = Some (PStr "Validation is enabled, but no result validator was provided")
      /\ at_path ["result"] resp = None.
Proof.
  intros self d options name method sv r Hv Hm Hr Hp Hdo Hflag Hsv Hres.
  rewrite (call_py_resolved self d options name method Hv Hm Hr).
  exists (make_jsonrpc_error_response
            (PDict [ ("name", PStr "JSONRPCError"); ("code", PInt (-32602));
                     ("message", PStr "Invalid params");
                     ("error",
                      PDict [ ("message",
                               PStr "Validation is enabled, but no result validator was provided");
                              ("method", PStr name) ]) ])
            (dict_get "id" d)).
  split.
  - unfold call_py_try. rewrite Hdo. simpl.
    unfold do_result. rewrite Hflag, Hsv, Hres. reflexivity.
  - rewrite !at_path_error_response. repeat split.
    unfold make_jsonrpc_error_response. now destruct (is_none (dict_get "id" d)).
Qed.

Lemma system_result_checked_by_service_schemas_witness :
  has_result_validation (system_validation Demo.checked) "system.describe" = true
  /\ exists resp,
       call_py Demo.checked (Demo.request "system.describe" [ ("id", PInt 1) ]) PNone
       = Return resp
       /\ at_path ["error"; "code"] resp = Some (PInt (-32602))
       /\ at_path ["result"] resp = None.
Proof.
  split; [reflexivity|].
  destruct (system_result_checked_by_service_schemas Demo.checked
              [ ("version", PStr "1.1"); ("method", PStr "system.describe");
                ("id", PInt 1) ]
              PNone "system.describe" (handle_system_describe Demo.describe_json)
              Demo.sum_schemas Demo.describe_json
              eq_refl eq_refl eq_refl eq_refl eq_refl eq_refl eq_refl eq_refl)
    as [resp [Hc [Hcode [_ Hnone]]]].
  exists resp. auto.
Defined.

(** ** What [call] hands to the transport *)

Lemma error_response_is_dict error id :
  exists x, make_jsonrpc_error_response error id = PDict x.
Proof. unfold make_jsonrpc_error_response. destruct (is_none id); eauto. Qed.

Lemma make_error_response_is_dict name id error resp :
  make_error_response name id error = Return resp -> exists x, resp = PDict x.
Proof.
  unfold make_error_response.
  destruct (getitem "error" _) as [inner|e]; simpl; [|discriminate].
  destruct (setitem inner "method" (PStr name)) as [inner'|e]; simpl; [|discriminate].
  intros H. injection H as <-. apply error_response_is_dict.
Qed.

Lemma make_result_response_is_dict has_id d result resp :
  make_result_response has_id d result = Return resp -> exists x, resp = PDict x.
Proof.
  unfold make_result_response.
  destruct has_id; [destruct (getitem "id" d); simpl|];
    intros H; try discriminate; injection H as <-; eauto.
Qed.

Lemma bind_returns {A B} (m : outcome A) (k : A -> outcome B) b :
  (x <- m ;; k x) = Return b -> exists a, m = Return a /\ k a = Return b.
Proof. destruct m; simpl; [eauto | discriminate]. Qed.

Lemma call_py_try_is_dict self d has_id id name method params options resp :
  call_py_try self d has_id id name method params options = Return resp ->
  exists x, resp = PDict x.
Proof.
  unfold call_py_try.
  destruct (result <- do_method self name method params options ;;
            result <- do_result self name result ;;
            make_result_response has_id d result)
    as [resp0 | [message path value | code message data | code message data
                 | cls text trace]] eqn:Hbody.
  - intros H. injection H as <-.
    apply bind_returns in Hbody as [r0 [_ Hbody]].
    apply bind_returns in Hbody as [r [_ Hbody]].
    now apply make_result_response_is_dict in Hbody.
  - discriminate.
  - simpl. apply make_error_response_is_dict.
  - destruct (reserved_code code); simpl; apply make_error_response_is_dict.
  - simpl. apply make_error_response_is_dict.
Qed.

(** Every value [call_py] returns is a [dict]: it never returns [None]. *)
Lemma call_py_is_dict self req_data options resp :
  call_py self req_data options = Return resp -> exists x, resp = PDict x.
Proof.
  unfold call_py.
  destruct (jsonrpc_schemas self req_data) as [[]|[message path value| | |]];
    try discriminate.
  - intros H.
    apply bind_returns in H as [has_id [_ H]].
    apply bind_returns in H as [req [_ H]].
    apply bind_returns in H as [method_name [_ H]].
    destruct method_name as [| b | z | name | l | x]; try discriminate;
      try (unfold method_not_found in H; simpl in H; injection H as <-;
           apply error_response_is_dict).
    destruct (dict_lookup name (method_registry self)) as [method|].
    + now apply call_py_try_is_dict in H.
    + unfold method_not_found in H. simpl in H. injection H as <-.
      apply error_response_is_dict.
  - simpl. destruct req_data; intros H; injection H as <-;
      apply error_response_is_dict.
Qed.

(** So the branch of [call] that returns nothing is never taken. *)
Lemma call_returns_text json_loads json_dumps self jsondata options :
  call json_loads json_dumps self jsondata options <> Return None.
Proof.
  unfold call. destruct (json_loads jsondata) as [err|request_data].
  - simpl. discriminate.
  - destruct (call_py self request_data options) as [resp|e] eqn:Hc; simpl;
      [|discriminate].
    apply call_py_is_dict in Hc as [x ->]. simpl. discriminate.
Qed.

(** * Further properties of the lifecycle *)

(** ** The string entry point *)

(** X1.  A text that [json.loads] rejects gets the serialised Parse-error
    envelope: code -32700, message "Parse error", the decoder's message as
    diagnostic data, and no [id].  The service and the options are not
    consulted. *)
Theorem call_parse_error :
  forall (json_loads : string -> string + pyval) (json_dumps : pyval -> string)
         (self : JSONRPCService) (text : string) (options : pyval) (err : string),
    json_loads text = inl err ->
    exists resp,
      call json_loads json_dumps self text options = Return (Some (json_dumps resp))
      /\ at_path ["version"] resp = Some (PStr "1.1")
      /\ at_path ["error"; "name"] resp = Some (PStr "JSONRPCError")
      /\ at_path ["error"; "code"] resp = Some (PInt (-32700))
      /\ at_path ["error"; "message"] resp = Some (PStr "Parse error")
      /\ at_path ["error"; "error"] resp = Some (PDict [ ("message", PStr err) ])
      /\ has_member "id" resp = false
      /\ has_member "result" resp = false.
Proof.
  intros json_loads json_dumps self text options err Hl.
  unfold call. rewrite Hl. simpl.
  eexists. split; [reflexivity|]. repeat split.
Qed.

Lemma call_parse_error_witness :
  exists resp,
    call Demo.loads Demo.dumps Demo.plain "{version" PNone
    = Return (Some (Demo.dumps resp))
    /\ at_path ["error"; "code"] resp = Some (PInt (-32700))
    /\ has_member "id" resp = false.
Proof.
  destruct (call_parse_error Demo.loads Demo.dumps Demo.plain "{version" PNone
              "Expecting value: line 1 column 1 (char 0)" eq_refl)
    as [resp [Hc [_ [_ [Hcode [_ [_ [Hid _]]]]]]]].
  exists resp. auto.
Defined.

(** X2.  On a text that decodes, [call] raises whatever [call_py] raises;
    and whenever [call] returns, [call_py] has returned a response and
    what [call] returns is the [json.dumps] text of that response, never
    nothing. *)
Theorem call_serialises_call_py :
  forall (json_loads : string -> string + pyval) (json_dumps : pyval -> string)
         (self : JSONRPCService) (text : string) (options req : pyval),
    json_loads text = inr req ->
    (forall e, call_py self req options = Raise e ->
       call json_loads json_dumps self text options = Raise e)
    /\ (forall out, call json_loads json_dumps self text options = Return out ->
          exists resp,
            call_py self req options = Return resp /\ out = Some (json_dumps resp)).
Proof.
  intros json_loads json_dumps self text options req Hl.
  unfold call. rewrite Hl. split.
  - intros e He. now rewrite He.
  - intros out Hout.
    destruct (call_py self req options) as [resp|e] eqn:Hc; simpl in Hout;
      [|discriminate].
    apply call_py_is_dict in Hc as [x ->]. simpl in Hout.
    injection Hout as <-. eauto.
Qed.

Lemma call_serialises_call_py_witness :
  (exists resp,
     call_py Demo.plain Demo.sum_request PNone = Return resp
     /\ Some (Demo.dumps
                (PDict [ ("version", PStr "1.1"); ("result", PInt 5); ("id", PInt 1) ]))
        = Some (Demo.dumps resp))
  /\ call Demo.loads Demo.dumps Demo.strict (Demo.dumps Demo.sum_request) PNone
     = Raise (TypeError "unhashable type: 'dict'").
Proof.
  split.
  - apply (proj2 (call_serialises_call_py Demo.loads Demo.dumps Demo.plain
                    (Demo.dumps Demo.sum_request) PNone Demo.sum_request eq_refl)).
    vm_compute. reflexivity.
  - apply (proj1 (call_serialises_call_py Demo.loads Demo.dumps Demo.strict
                    (Demo.dumps Demo.sum_request) PNone Demo.sum_request eq_refl)).
    vm_compute. reflexivity.
Defined.

(** ** Structural validation *)

(** X3.  A request that the request schema rejects gets an Invalid-Request
    envelope: code -32600, message "Invalid Request", and the violation's
    message, path and value as diagnostic data.  The envelope carries the
    request's [id] when the request is a [dict] whose [id] is not [None],
    and no [id] otherwise; no method is looked up. *)
Theorem invalid_request_envelope :
  forall (self : JSONRPCService) (req options message path value : pyval),
    jsonrpc_schemas self req = Raise (SchemaError message path value) ->
    exists resp,
      call_py self req options = Return resp
      /\ at_path ["error"; "code"] resp = Some (PInt (-32600))
      /\ at_path ["error"; "message"] resp = Some (PStr "Invalid Request")
      /\ at_path ["error"; "error"] resp
         = Some (PDict [ ("message", message); ("path", path); ("value", value) ])
      /\ at_path ["id"] resp
         = match req with
           | PDict d => if is_none (dict_get "id" d) then None else Some (dict_get "id" d)
           | _ => None
           end
      /\ has_member "result" resp = false.
Proof.
  intros self req options message path value Hv.
  unfold call_py. rewrite Hv. simpl.
  destruct req as [| b | z | s | l | d]; eexists; (split; [reflexivity|]);
    rewrite ?at_path_error_response, ?at_path_id_response;
    repeat split;
    unfold has_member, make_jsonrpc_error_response;
    try destruct (is_none (dict_get "id" d)); reflexivity.
Qed.

Lemma invalid_request_envelope_witness :
  (exists resp,
     call_py Demo.plain (PDict [ ("method", PStr "add"); ("id", PInt 3) ]) PNone
     = Return resp
     /\ at_path ["error"; "code"] resp = Some (PInt (-32600))
     /\ at_path ["id"] resp = Some (PInt 3))
  /\ (exists resp,
        call_py Demo.plain (PList [ PStr "id" ]) PNone = Return resp
        /\ at_path ["error"; "code"] resp = Some (PInt (-32600))
        /\ at_path ["id"] resp = None).
Proof.
  split.
  - destruct (invalid_request_envelope Demo.plain
                (PDict [ ("method", PStr "add"); ("id", PInt 3) ]) PNone
                (PStr "version and method are required") (PList [])
                (PDict [ ("method", PStr "add"); ("id", PInt 3) ]) eq_refl)
      as [resp [Hc [Hcode [_ [_ [Hid _]]]]]].
    exists resp. auto.
  - destruct (invalid_request_envelope Demo.plain (PList [ PStr "id" ]) PNone
                (PStr "request is not an object") (PList [])
                (PList [ PStr "id" ]) eq_refl)
      as [resp [Hc [Hcode [_ [_ [Hid _]]]]]].
    exists resp. auto.
Defined.

(** ** The shape of every response *)

Lemma make_error_response_inv name id error resp :
  make_error_response name id error = Return resp ->
  exists error', resp = make_jsonrpc_error_response error' id.
Proof.
  unfold make_error_response.
  destruct (getitem "error" _) as [inner|e]; simpl; [|discriminate].
  destruct (setitem inner "method" (PStr name)) as [inner'|e]; simpl; [|discriminate].
  intros H. injection H as <-. eauto.
Qed.

Lemma make_result_response_inv has_id d result resp :
  make_result_response has_id d result = Return resp ->
  resp = PDict [ ("version", PStr "1.1"); ("result", result) ]
  \/ exists id, dict_lookup "id" d = Some id
                /\ resp = PDict [ ("version", PStr "1.1"); ("result", result); ("id", id) ].
Proof.
  unfold make_result_response, getitem.
  destruct has_id.
  - destruct (dict_lookup "id" d) as [id|]; simpl; [|discriminate].
    intros H. injection H as <-. right. eauto.
  - intros H. injection H as <-. now left.
Qed.

(** Where a returned response comes from: an error envelope built around
    the request's [id], or a success envelope built from the request. *)
Lemma call_py_try_inv self d has_id id name method params options resp :
  call_py_try self d has_id id name method params options = Return resp ->
  (exists error, resp = make_jsonrpc_error_response error id)
  \/ (exists result, make_result_response has_id d result = Return resp).
Proof.
  unfold call_py_try.
  destruct (result <- do_method self name method params options ;;
            result <- do_result self name result ;;
            make_result_response has_id d result)
    as [resp0 | [message path value | code message data | code message data
                 | cls text trace]] eqn:Hbody.
  - intros H. injection H as <-. right.
    apply bind_returns in Hbody as [r0 [_ Hbody]].
    apply bind_returns in Hbody as [r [_ Hbody]]. eauto.
  - discriminate.
  - simpl. intros H. left. eapply make_error_response_inv, H.
  - destruct (reserved_code code); simpl; intros H; left;
      eapply make_error_response_inv, H.
  - simpl. intros H. left. eapply make_error_response_inv, H.
Qed.

Lemma call_py_inv self req options resp :
  call_py self req options = Return resp ->
  (exists error,
     resp = make_jsonrpc_error_response error
              (match req with PDict d => dict_get "id" d | _ => PNone end))
  \/ (exists d result,
        req = PDict d /\ make_result_response (dict_mem "id" d) d result = Return resp).
Proof.
  unfold call_py.
  destruct (jsonrpc_schemas self req) as [[]|[message path value| | |]];
    try discriminate.
  - destruct req as [| b | z | s | l | d]; simpl; try discriminate.
    intros H. apply bind_returns in H as [method_name [_ H]].
    destruct method_name as [| b | z | name | l | x]; try discriminate;
      try (unfold method_not_found in H; simpl in H; injection H as <-;
           left; eauto).
    destruct (dict_lookup name (method_registry self)) as [method|].
    + apply call_py_try_inv in H as [[error ->] | [result H]]; [left|right]; eauto.
    + unfold method_not_found in H. simpl in H. injection H as <-. left. eauto.
  - simpl. destruct req; intros H; injection H as <-; left; eauto.
Qed.

(** X4.  Every response [call_py] returns has [version] "1.1" and exactly
    one of the members [result] and [error]. *)
Theorem response_has_result_xor_error :
  forall (self : JSONRPCService) (req options resp : pyval),
    call_py self req options = Return resp ->
    at_path ["version"] resp = Some (PStr "1.1")
    /\ has_member "result" resp = negb (has_member "error" resp).
Proof.
  intros self req options resp H.
  apply call_py_inv in H as [[error ->] | [d [result [_ H]]]].
  - unfold has_member, make_jsonrpc_error_response.
    destruct (is_none _); split; reflexivity.
  - apply make_result_response_inv in H as [-> | [id [_ ->]]]; split; reflexivity.
Qed.

Lemma response_has_result_xor_error_witness :
  at_path ["version"]
    (PDict [ ("version", PStr "1.1"); ("result", PInt 5); ("id", PInt 1) ])
  = Some (PStr "1.1")
  /\ has_member "result"
       (PDict [ ("version", PStr "1.1"); ("result", PInt 5); ("id", PInt 1) ])
     = negb (has_member "error"
               (PDict [ ("version", PStr "1.1"); ("result", PInt 5); ("id", PInt 1) ])).
Proof.
  apply (response_has_result_xor_error Demo.plain Demo.sum_request PNone).
  vm_compute. reflexivity.
Defined.

(** X5.  A response never carries an [id] of its own making: when a
    response has an [id] member, the request is a [dict] that holds the
    key [id] with that very value. *)
Theorem response_id_is_request_id :
  forall (self : JSONRPCService) (req options resp v : pyval),
    call_py self req options = Return resp ->
    at_path ["id"] resp = Some v ->
    exists d, req = PDict d /\ dict_lookup "id" d = Some v.
Proof.
  intros self req options resp v H Hid.
  apply call_py_inv in H as [[error ->] | [d [result [-> H]]]].
  - rewrite at_path_id_response in Hid.
    destruct req as [| b | z | s | l | d]; simpl in Hid; try discriminate.
    exists d. split; [reflexivity|].
    unfold dict_get in Hid.
    destruct (dict_lookup "id" d) as [id|]; simpl in Hid; [|discriminate].
    destruct (is_none id); [discriminate|]. exact Hid.
  - exists d. split; [reflexivity|].
    apply make_result_response_inv in H as [-> | [id [Hl ->]]].
    + discriminate.
    + simpl in Hid. congruence.
Qed.

Lemma response_id_is_request_id_witness :
  exists d, Demo.sum_request = PDict d /\ dict_lookup "id" d = Some (PInt 1).
Proof.
  apply (response_id_is_request_id Demo.plain Demo.sum_request PNone
           (PDict [ ("version", PStr "1.1"); ("result", PInt 5); ("id", PInt 1) ])
           (PInt 1));
    vm_compute; reflexivity.
Defined.

(** ** Parameter validation *)

(** [do_method] with the schema set it consults made explicit. *)
Lemma do_method_with_validator self name method params options v :
  params_validator self name = Some v ->
  do_method self name method params options
  = if has_params_validation v name then
      if is_none params then
        Raise (InvalidParamsError (Some (msg_dict
          "Method has parameters specified, but none were provided")))
      else validate_params v name params ;;; call_method method params options
    else if has_absent_params_validation v name then
      if is_none params then
        validate_absent_params v name ;;; call_method method PNone options
      else
        Raise (InvalidParamsError (Some (msg_dict
          "Method has no parameters specified, but arguments were provided")))
    else
      Raise (InvalidParamsError (Some (msg_dict
        "Validation is enabled, but no parameter validator was provided"))).
Proof.
  unfold params_validator, do_method. cbv zeta. intros ->. reflexivity.
Qed.

(** The envelope of an [InvalidParamsError] that carries one message. *)
Lemma invalid_params_envelope self d options name method text :
  jsonrpc_schemas self (PDict d) = Return tt ->
  dict_lookup "method" d = Some (PStr name) ->
  dict_lookup name (method_registry self) = Some method ->
  do_method self name method (dict_get "params" d) options
  = Raise (InvalidParamsError (Some (msg_dict text))) ->
  call_py self (PDict d) options
  = Return (make_jsonrpc_error_response
      (PDict [ ("name", PStr "JSONRPCError"); ("code", PInt (-32602));
               ("message", PStr "Invalid params");
               ("error", PDict [ ("message", PStr text); ("method", PStr name) ]) ])
      (dict_get "id" d)).
Proof.
  intros Hv Hm Hr Hdo.
  now rewrite (call_py_method_raises self d options name method _ Hv Hm Hr Hdo).
Qed.

(** X6.  A method whose schema set declares parameters, called without
    [params] (or with a null [params]), gets an Invalid-params envelope
    (-32602) saying that none were provided, whatever the handler is: the
    handler is not run. *)
Theorem required_params_missing :
  forall (self : JSONRPCService) (d : dict pyval) (options : pyval)
         (name : string) (method : Method) (v : Validation),
    jsonrpc_schemas self (PDict d) = Return tt ->
    dict_lookup "method" d = Some (PStr name) ->
    dict_lookup name (method_registry self) = Some method ->
    params_validator self name = Some v ->
    has_params_validation v name = true ->
    dict_get "params" d = PNone ->
    exists resp,
      call_py self (PDict d) options = Return resp
      /\ at_path ["error"; "code"] resp = Some (PInt (-32602))
      /\ at_path ["error"; "message"] resp = Some (PStr "Invalid params")
      /\ at_path ["error"; "error"] resp
         = Some (PDict [ ("message",
                          PStr "Method has parameters specified, but none were provided");
                         ("method", PStr name) ]).
Proof.
  intros self d options name method v Hv Hm Hr Hval Hhas Hp.
  eexists. split.
  - eapply (invalid_params_envelope self d options name method _ Hv Hm Hr).
    rewrite (do_method_with_validator _ _ _ _ _ v Hval), Hhas, Hp. reflexivity.
  - rewrite !at_path_error_response. repeat split.
Qed.

Lemma required_params_missing_witness :
  exists resp,
    call_py Demo.validated (Demo.request "add" [ ("id", PInt 4) ]) PNone = Return resp
    /\ at_path ["error"; "code"] resp = Some (PInt (-32602)).
Proof.
  destruct (required_params_missing Demo.validated
              [ ("version", PStr "1.1"); ("method", PStr "add"); ("id", PInt 4) ]
              PNone "add" {| call_method := func_body Demo.add_func |}
              Demo.pair_schemas eq_refl eq_refl eq_refl eq_refl eq_refl eq_refl)
    as [resp [Hc [Hcode _]]].
  exists resp. auto.
Defined.

(** X7.  A method whose schema set declares that it takes no parameters,
    called with [params], gets an Invalid-params envelope (-32602) saying
    that arguments were provided, whatever the parameters and the handler
    are. *)
Theorem unexpected_params_rejected :
  forall (self : JSONRPCService) (d : dict pyval) (options : pyval)
         (name : string) (method : Method) (v : Validation),
    jsonrpc_schemas self (PDict d) = Return tt ->
    dict_lookup "method" d = Some (PStr name) ->
    dict_lookup name (method_registry self) = Some method ->
    params_validator self name = Some v ->
    has_params_validation v name = false ->
    has_absent_params_validation v name = true ->
    is_none (dict_get "params" d) = false ->
    exists resp,
      call_py self (PDict d) options = Return resp
      /\ at_path ["error"; "code"] resp = Some (PInt (-32602))
      /\ at_path ["error"; "message"] resp = Some (PStr "Invalid params")
      /\ at_path ["error"; "error"] resp
         = Some (PDict [ ("message",
                          PStr "Method has no parameters specified, but arguments were provided");
                         ("method", PStr name) ]).
Proof.
  intros self d options name method v Hv Hm Hr Hval Hhas Habs Hp.
  eexists. split.
  - eapply (invalid_params_envelope self d options name method _ Hv Hm Hr).
    rewrite (do_method_with_validator _ _ _ _ _ v Hval), Hhas, Habs, Hp. reflexivity.
  - rewrite !at_path_error_response. repeat split.
Qed.

Lemma unexpected_params_rejected_witness :
  exists resp,
    call_py Demo.plain
            (Demo.request "system.describe" [ ("params", PList [ PInt 1 ]) ]) PNone
    = Return resp
    /\ at_path ["error"; "code"] resp = Some (PInt (-32602)).
Proof.
  destruct (unexpected_params_rejected Demo.plain
              [ ("version", PStr "1.1"); ("method", PStr "system.describe");
                ("params", PList [ PInt 1 ]) ]
              PNone "system.describe" (handle_system_describe Demo.describe_json)
              Demo.system_schemas eq_refl eq_refl eq_refl eq_refl eq_refl eq_refl eq_refl)
    as [resp [Hc [Hcode _]]].
  exists resp. auto.
Defined.

(** X8.  When a schema set is consulted and declares neither role for the
    method, every call of the method gets an Invalid-params envelope
    (-32602) saying that no parameter validator was provided, with or
    without [params]; the handler is not run. *)
Theorem undeclared_method_rejected :
  forall (self : JSONRPCService) (d : dict pyval) (options : pyval)
         (name : string) (method : Method) (v : Validation),
    jsonrpc_schemas self (PDict d) = Return tt ->
    dict_lookup "method" d = Some (PStr name) ->
    dict_lookup name (method_registry self) = Some method ->
    params_validator self name = Some v ->
    has_params_validation v name = false ->
    has_absent_params_validation v name = false ->
    exists resp,
      call_py self (PDict d) options = Return resp
      /\ at_path ["error"; "code"] resp = Some (PInt (-32602))
      /\ at_path ["error"; "message"] resp = Some (PStr "Invalid params")
      /\ at_path ["error"; "error"] resp
         = Some (PDict [ ("message",
                          PStr "Validation is enabled, but no parameter validator was provided");
                         ("method", PStr name) ]).
Proof.
  intros self d options name method v Hv Hm Hr Hval Hhas Habs.
  eexists. split.
  - eapply (invalid_params_envelope self d options name method _ Hv Hm Hr).
    rewrite (do_method_with_validator _ _ _ _ _ v Hval), Hhas, Habs. reflexivity.
  - rewrite !at_path_error_response. repeat split.
Qed.

Lemma undeclared_method_rejected_witness :
  exists resp,
    call_py Demo.validated (Demo.request "boom" [ ("id", PInt 4) ]) PNone = Return resp
    /\ at_path ["error"; "code"] resp = Some (PInt (-32602)).
Proof.
  destruct (undeclared_method_rejected Demo.validated
              [ ("version", PStr "1.1"); ("method", PStr "boom"); ("id", PInt 4) ]
              PNone "boom" {| call_method := func_body (Demo.raiser "boom" Demo.fault) |}
              Demo.pair_schemas eq_refl eq_refl eq_refl eq_refl eq_refl eq_refl)
    as [resp [Hc [Hcode _]]].
  exists resp. auto.
Defined.

(** X9.  When the parameter validator raises [InvalidParamsError] with a
    violation payload, the call gets an Invalid-params envelope (-32602)
    whose diagnostic data is that payload with the entry [method] set;
    the handler is not run. *)
Theorem params_violation_envelope :
  forall (self : JSONRPCService) (d : dict pyval) (options : pyval)
         (name : string) (method : Method) (v : Validation) (payload : dict pyval),
    jsonrpc_schemas self (PDict d) = Return tt ->
    dict_lookup "method" d = Some (PStr name) ->
    dict_lookup name (method_registry self) = Some method ->
    params_validator self name = Some v ->
    has_params_validation v name = true ->
    is_none (dict_get "params" d) = false ->
    validate_params v name (dict_get "params" d)
    = Raise (InvalidParamsError (Some payload)) ->
    exists resp,
      call_py self (PDict d) options = Return resp
      /\ at_path ["error"; "code"] resp = Some (PInt (-32602))
      /\ at_path ["error"; "message"] resp = Some (PStr "Invalid params")
      /\ at_path ["error"; "error"] resp
         = Some (PDict (dict_set "method" (PStr name) payload)).
Proof.
  intros self d options name method v payload Hv Hm Hr Hval Hhas Hp Hviol.
  assert (Hdo : do_method self name method (dict_get "params" d) options
                = Raise (InvalidParamsError (Some payload))).
  { rewrite (do_method_with_validator _ _ _ _ _ v Hval), Hhas, Hp, Hviol. reflexivity. }
  rewrite (call_py_method_raises self d options name method _ Hv Hm Hr Hdo).
  eexists. split; [reflexivity|].
  rewrite !at_path_error_response. repeat split.
Qed.

Lemma params_violation_envelope_witness :
  exists resp,
    call_py Demo.validated
            (Demo.request "add" [ ("params", PList [ PInt 1 ]); ("id", PInt 4) ]) PNone
    = Return resp
    /\ at_path ["error"; "code"] resp = Some (PInt (-32602))
    /\ at_path ["error"; "error"] resp
       = Some (PDict [ ("message", PStr "two parameters expected");
                       ("path", PList []); ("value", PList [ PInt 1 ]);
                       ("method", PStr "add") ]).
Proof.
  destruct (params_violation_envelope Demo.validated
              [ ("version", PStr "1.1"); ("method", PStr "add");
                ("params", PList [ PInt 1 ]); ("id", PInt 4) ]
              PNone "add" {| call_method := func_body Demo.add_func |}
              Demo.pair_schemas
              [ ("message", PStr "two parameters expected");
                ("path", PList []); ("value", PList [ PInt 1 ]) ]
              eq_refl eq_refl eq_refl eq_refl eq_refl eq_refl eq_refl)
    as [resp [Hc [Hcode [_ Hdata]]]].
  exists resp. auto.
Defined.

(** ** Invocation and result validation *)

(** The success envelope, member by member. *)
Lemma success_envelope self d options name method r0 r :
  jsonrpc_schemas self (PDict d) = Return tt ->
  dict_lookup "method" d = Some (PStr name) ->
  dict_lookup name (method_registry self) = Some method ->
  do_method self name method (dict_get "params" d) options = Return r0 ->
  do_result self name r0 = Return r ->
  call_py self (PDict d) options
  = Return (PDict (("version", PStr "1.1") :: ("result", r)
                   :: match dict_lookup "id" d with
                      | Some id => [ ("id", id) ]
                      | None => []
                      end)).
Proof.
  intros Hv Hm Hr Hdo Hres.
  rewrite (call_py_resolved self d options name method Hv Hm Hr).
  unfold call_py_try. rewrite Hdo. simpl. rewrite Hres. simpl.
  unfold make_result_response, getitem, dict_mem.
  destruct (dict_lookup "id" d) as [id|]; reflexivity.
Qed.

(** X10.  The whole lifecycle on a method with declared parameters and a
    declared result: when the parameters pass their schema, the handler
    returns [r] on them and [r] passes the result schema, the response is
    the success envelope with result [r], and with the request's [id]
    exactly when the request has the key. *)
Theorem validated_call_succeeds :
  forall (self : JSONRPCService) (d : dict pyval) (options : pyval)
         (name : string) (method : Method) (v sv : Validation) (r : pyval),
    jsonrpc_schemas self (PDict d) = Return tt ->
    dict_lookup "method" d = Some (PStr name) ->
    dict_lookup name (method_registry self) = Some method ->
    params_validator self name = Some v ->
    has_params_validation v name = true ->
    is_none (dict_get "params" d) = false ->
    validate_params v name (dict_get "params" d) = Return tt ->
    call_method method (dict_get "params" d) options = Return r ->
    validate_result_flag self = true ->
    service_validation self = Some sv ->
    has_result_validation sv name = true ->
    has_absent_result_validation sv name = false ->
    validate_result sv name r = Return tt ->
    exists resp,
      call_py self (PDict d) options = Return resp
      /\ at_path ["version"] resp = Some (PStr "1.1")
      /\ at_path ["result"] resp = Some r
      /\ at_path ["id"] resp = dict_lookup "id" d
      /\ at_path ["error"] resp = None.
Proof.
  intros self d options name method v sv r
         Hv Hm Hr Hval Hhas Hp Hpar Hcall Hflag Hsv Hres Habs Hok.
  assert (Hdo : do_method self name method (dict_get "params" d) options = Return r).
  { rewrite (do_method_with_validator _ _ _ _ _ v Hval), Hhas, Hp, Hpar. exact Hcall. }
  assert (Hdr : do_result self name r = Return r).
  { unfold do_result. now rewrite Hflag, Hsv, Hres, Habs, Hok. }
  eexists. split.
  - apply (success_envelope self d options name method r r Hv Hm Hr Hdo Hdr).
  - destruct (dict_lookup "id" d); repeat split.
Qed.

Lemma validated_call_succeeds_witness :
  exists resp,
    call_py Demo.validated Demo.sum_request PNone = Return resp
    /\ at_path ["result"] resp = Some (PInt 5)
    /\ at_path ["id"] resp = Some (PInt 1).
Proof.
  destruct (validated_call_succeeds Demo.validated
              [ ("version", PStr "1.1"); ("method", PStr "add");
                ("params", PList [PInt 2; PInt 3]); ("id", PInt 1) ]
              PNone "add" {| call_method := func_body Demo.add_func |}
              Demo.pair_schemas Demo.pair_schemas (PInt 5)
              eq_refl eq_refl eq_refl eq_refl eq_refl eq_refl eq_refl eq_refl
              eq_refl eq_refl eq_refl eq_refl eq_refl)
    as [resp [Hc [_ [Hres [Hid _]]]]].
  exists resp. auto.
Defined.



(** X12.  A service built without a schema directory validates nothing for
    its own methods: the handler gets the request's [params] as they are
    ([None] when absent) and what it returns is the result, whether or not
    result validation was asked for. *)
Theorem unvalidated_call_passes_through :
  forall (self : JSONRPCService) (d : dict pyval) (options : pyval)
         (name : string) (method : Method) (r : pyval),
    jsonrpc_schemas self (PDict d) = Return tt ->
    dict_lookup "method" d = Some (PStr name) ->
    dict_lookup name (method_registry self) = Some method ->
    String.prefix "system." name = false ->
    service_validation self = None ->
    call_method method (dict_get "params" d) options = Return r ->
    exists resp,
      call_py self (PDict d) options = Return resp
      /\ at_path ["result"] resp = Some r
      /\ at_path ["id"] resp = dict_lookup "id" d
      /\ at_path ["error"] resp = None.
Proof.
  intros self d options name method r Hv Hm Hr Hp Hsv Hcall.
  apply (success_envelope_echoes_id self d options name method r r Hv Hm Hr).
  - now rewrite (do_method_unvalidated self name method _ options Hp Hsv).
  - unfold do_result. rewrite Hsv. now destruct (negb (validate_result_flag self)).
Qed.

Lemma unvalidated_call_passes_through_witness :
  exists resp,
    call_py Demo.plain Demo.sum_request PNone = Return resp
    /\ at_path ["result"] resp = Some (PInt 5)
    /\ at_path ["id"] resp = Some (PInt 1).
Proof.
  destruct (unvalidated_call_passes_through Demo.plain
              [ ("version", PStr "1.1"); ("method", PStr "add");
                ("params", PList [PInt 2; PInt 3]); ("id", PInt 1) ]
              PNone "add" {| call_method := func_body Demo.add_func |} (PInt 5)
              eq_refl eq_refl eq_refl eq_refl eq_refl eq_refl)
    as [resp [Hc [Hres [Hid _]]]].
  exists resp. auto.
Defined.

(** ** Error envelopes of the [try] statement *)

(** The envelope made from [to_json] of an exception with data [data]. *)
Lemma to_json_error_response name id hd code message data :
  make_error_response name id
    (match data with
     | Some x => dict_set "error" (PDict x)
                   [ ("name", hd); ("code", code); ("message", message) ]
     | None => [ ("name", hd); ("code", code); ("message", message) ]
     end)
  = Return (make_jsonrpc_error_response
      (PDict [ ("name", hd); ("code", code); ("message", message);
               ("error", PDict (dict_set "method" (PStr name)
                                  (match data with Some x => x | None => [] end))) ])
      id).
Proof. destruct data; reflexivity. Qed.

(** X13.  An [APIError] whose code lies outside [-32768, -32000] reaches
    the caller as it is: the error object has the name "APIError", the
    handler's code and message, and the handler's data with the entry
    [method] set. *)
Theorem application_error_forwarded :
  forall (self : JSONRPCService) (d : dict pyval) (options : pyval)
         (name : string) (method : Method)
         (code : Z) (message : option string) (data : option (dict pyval)),
    jsonrpc_schemas self (PDict d) = Return tt ->
    dict_lookup "method" d = Some (PStr name) ->
    dict_lookup name (method_registry self) = Some method ->
    code < -32768 \/ -32000 < code ->
    do_method self name method (dict_get "params" d) options
    = Raise (APIError code message data) ->
    exists resp,
      call_py self (PDict d) options = Return resp
      /\ at_path ["error"; "name"] resp = Some (PStr "APIError")
      /\ at_path ["error"; "code"] resp = Some (PInt code)
      /\ at_path ["error"; "message"] resp = Some (PStr (str_of_opt message))
      /\ at_path ["error"; "error"] resp
         = Some (PDict (dict_set "method" (PStr name)
                                 (match data with Some x => x | None => [] end)))
      /\ at_path ["id"] resp
         = (if is_none (dict_get "id" d) then None else Some (dict_get "id" d)).
Proof.
  intros self d options name method code message data Hv Hm Hr Hout Hdo.
  assert (Hres : reserved_code code = false).
  { unfold reserved_code. apply andb_false_iff.
    destruct Hout; [left; rewrite Z.geb_leb | right]; apply Z.leb_gt; lia. }
  rewrite (call_py_method_raises self d options name method _ Hv Hm Hr Hdo), Hres.
  unfold APIError_to_json. rewrite to_json_error_response.
  eexists. split; [reflexivity|].
  rewrite !at_path_error_response, at_path_id_response. repeat split.
Qed.

Lemma application_error_forwarded_witness :
  exists resp,
    call_py Demo.billing (Demo.request "pay" [ ("id", PInt 9) ]) PNone = Return resp
    /\ at_path ["error"; "name"] resp = Some (PStr "APIError")
    /\ at_path ["error"; "code"] resp = Some (PInt 100)
    /\ at_path ["error"; "error"] resp
       = Some (PDict [ ("retry", PBool false); ("method", PStr "pay") ]).
Proof.
  destruct (application_error_forwarded Demo.billing
              [ ("version", PStr "1.1"); ("method", PStr "pay"); ("id", PInt 9) ]
              PNone "pay"
              {| call_method :=
                   func_body (Demo.raiser "pay"
                     (APIError 100 (Some "card declined") (Some [ ("retry", PBool false) ]))) |}
              100 (Some "card declined") (Some [ ("retry", PBool false) ])
              eq_refl eq_refl eq_refl ltac:(right; lia) eq_refl)
    as [resp [Hc [Hname [Hcode [_ [Hdata _]]]]]].
  exists resp. auto.
Defined.

(** X14.  Once the method is resolved, every error envelope names it: the
    diagnostic data holds the entry [method] with the method's name, also
    when the exception's own data had an entry [method]. *)
Theorem error_envelope_names_method :
  forall (self : JSONRPCService) (d : dict pyval) (options : pyval)
         (name : string) (method : Method) (resp : pyval),
    jsonrpc_schemas self (PDict d) = Return tt ->
    dict_lookup "method" d = Some (PStr name) ->
    dict_lookup name (method_registry self) = Some method ->
    call_py self (PDict d) options = Return resp ->
    has_member "error" resp = true ->
    at_path ["error"; "error"; "method"] resp = Some (PStr name).
Proof.
  intros self d options name method resp Hv Hm Hr Hc Herr.
  rewrite (call_py_resolved self d options name method Hv Hm Hr) in Hc.
  unfold call_py_try in Hc.
  destruct (result <- do_method self name method (dict_get "params" d) options ;;
            result <- do_result self name result ;;
            make_result_response (dict_mem "id" d) d result)
    as [resp0 | [message path value | code message data | code message data
                 | cls text trace]] eqn:Hbody.
  - injection Hc as <-.
    apply bind_returns in Hbody as [r0 [_ Hbody]].
    apply bind_returns in Hbody as [r [_ Hbody]].
    apply make_result_response_inv in Hbody as [-> | [id [_ ->]]]; discriminate.
  - discriminate.
  - simpl in Hc. unfold JSONRPCError_to_json in Hc.
    rewrite to_json_error_response in Hc. injection Hc as <-.
    rewrite at_path_error_response. simpl. now rewrite dict_lookup_set_eq.
  - destruct (reserved_code code).
    + simpl in Hc. injection Hc as <-. now rewrite at_path_error_response.
    + simpl in Hc. unfold APIError_to_json in Hc.
      rewrite to_json_error_response in Hc. injection Hc as <-.
      rewrite at_path_error_response. simpl. now rewrite dict_lookup_set_eq.
  - simpl in Hc. injection Hc as <-. now rewrite at_path_error_response.
Qed.

Lemma error_envelope_names_method_witness :
  at_path ["error"; "error"; "method"]
    (PDict [ ("version", PStr "1.1");
             ("error",
              PDict [ ("name", PStr "JSONRPCError"); ("code", PInt (-32050));
                      ("message", PStr "refused");
                      ("error", PDict [ ("detail", PStr "x"); ("method", PStr "refuse") ]) ]);
             ("id", PInt 7) ])
  = Some (PStr "refuse").
Proof.
  apply (error_envelope_names_method Demo.raising
           [ ("version", PStr "1.1"); ("method", PStr "refuse"); ("id", PInt 7) ]
           PNone "refuse"
           {| call_method :=
                func_body (Demo.raiser "refuse"
                  (JSONRPCError (-32050) (Some "refused") (Some [ ("detail", PStr "x") ]))) |});
    vm_compute; reflexivity.
Defined.

(** X15.  Once the method is resolved, a [SchemaError] raised during
    invocation (by the parameter validator or by the handler) or by result
    validation is not turned into an envelope: [call_py] raises the
    [TypeError] of the [except SchemaError] clause. *)
Theorem schema_error_escapes_call_py :
  forall (self : JSONRPCService) (d : dict pyval) (options : pyval)
         (name : string) (method : Method) (message path value : pyval),
    jsonrpc_schemas self (PDict d) = Return tt ->
    dict_lookup "method" d = Some (PStr name) ->
    dict_lookup name (method_registry self) = Some method ->
    (do_method self name method (dict_get "params" d) options
     = Raise (SchemaError message path value)
     \/ exists r,
          do_method self name method (dict_get "params" d) options = Return r
          /\ do_result self name r = Raise (SchemaError message path value)) ->
    call_py self (PDict d) options = Raise (TypeError "unhashable type: 'dict'").
Proof.
  intros self d options name method message path value Hv Hm Hr Hschema.
  rewrite (call_py_resolved self d options name method Hv Hm Hr).
  unfold call_py_try.
  destruct Hschema as [Hdo | [r [Hdo Hres]]]; rewrite Hdo; simpl.
  - reflexivity.
  - rewrite Hres. reflexivity.
Qed.

Lemma schema_error_escapes_call_py_witness :
  call_py (Demo.with_method Demo.bare
             (Demo.raiser "check"
                (SchemaError (PStr "not a string") (PList [ PStr "name" ]) (PInt 3))))
          (Demo.request "check" [ ("id", PInt 1) ]) PNone
  = Raise (TypeError "unhashable type: 'dict'").
Proof.
  apply (schema_error_escapes_call_py
           (Demo.with_method Demo.bare
              (Demo.raiser "check"
                 (SchemaError (PStr "not a string") (PList [ PStr "name" ]) (PInt 3))))
           [ ("version", PStr "1.1"); ("method", PStr "check"); ("id", PInt 1) ]
           PNone "check"
           {| call_method :=
                func_body (Demo.raiser "check"
                  (SchemaError (PStr "not a string") (PList [ PStr "name" ]) (PInt 3))) |}
           (PStr "not a string") (PList [ PStr "name" ]) (PInt 3)
           eq_refl eq_refl eq_refl).
  left. reflexivity.
Defined.

(** ** [make_jsonrpc_error] *)

Lemma assoc_Z_in (t : list (Z * string)) (c : Z) :
  (exists s, assoc_Z c t = Some s) <-> In c (map fst t).
Proof.
  induction t as [|[c' s'] rest IH]; simpl.
  - split; [intros [s H]; discriminate | contradiction].
  - destruct (Z.eqb c c') eqn:E.
    + apply Z.eqb_eq in E. subst c'. split; eauto.
    + apply Z.eqb_neq in E. rewrite IH. split; [auto|].
      intros [H|H]; [congruence | exact H].
Qed.

(** The message [make_jsonrpc_error] settles on, when there is one. *)
Lemma make_jsonrpc_error_cases (code : Z) (message : option string) (error : pyval) :
  make_jsonrpc_error (PInt code) message error
  = match (match message with
           | Some (String c s) => Some (String c s)
           | _ => assoc_Z code RPC_ERRORS
           end) with
    | Some text =>
        Return (if is_none error
                then [ ("name", PStr "JSONRPCError"); ("code", PInt code);
                       ("message", PStr text) ]
                else [ ("name", PStr "JSONRPCError"); ("code", PInt code);
                       ("message", PStr text); ("error", error) ])
    | None => Raise (KeyError (repr_int code))
    end.
Proof.
  unfold make_jsonrpc_error, RPC_ERRORS_getitem.
  generalize (assoc_Z code RPC_ERRORS). intros o.
  destruct message as [[|c s]|]; destruct o; simpl;
    destruct (is_none error); reflexivity.
Qed.

(** X16.  [make_jsonrpc_error] with an [int] code returns an error object
    exactly when a non-empty message is given or the code is one of the
    six of [RPC_ERRORS]; otherwise [RPC_ERRORS[code]] raises the [KeyError]
    of the code, whose text is the code's numeral.
    The object has the code given, and the member [error] exactly when
    [error] is not [None]. *)
Theorem make_jsonrpc_error_defined :
  forall (code : Z) (message : option string) (error : pyval),
    ((exists e, make_jsonrpc_error (PInt code) message error = Return e)
     <-> ((exists c s, message = Some (String c s))
          \/ In code [-32700; -32600; -32601; -32602; -32603; -32000]))
    /\ (forall e, make_jsonrpc_error (PInt code) message error = Return e ->
          dict_lookup "name" e = Some (PStr "JSONRPCError")
          /\ dict_lookup "code" e = Some (PInt code)
          /\ dict_lookup "error" e = (if is_none error then None else Some error))
    /\ ((forall e, make_jsonrpc_error (PInt code) message error <> Return e) ->
          make_jsonrpc_error (PInt code) message error
          = Raise (KeyError (repr_int code))).
Proof.
  intros code message error.
  pose proof (assoc_Z_in RPC_ERRORS code) as Htab.
  change (map fst RPC_ERRORS)
    with [-32700; -32600; -32601; -32602; -32603; -32000] in Htab.
  rewrite make_jsonrpc_error_cases.
  assert (Hmsg : (exists c s, message = Some (String c s))
                 \/ (match message with
                     | Some (String c s) => Some (String c s)
                     | _ => assoc_Z code RPC_ERRORS
                     end) = assoc_Z code RPC_ERRORS).
  { destruct message as [[|c s]|]; eauto. }
  destruct (match message with
            | Some (String c s) => Some (String c s)
            | _ => assoc_Z code RPC_ERRORS
            end) as [text|] eqn:Hsel.
  - split; [|split].
    + split; [|eauto].
      intros _. destruct Hmsg as [Hm | Hm]; [now left|].
      right. apply Htab. exists text. now rewrite <- Hm.
    + intros e He. injection He as <-.
      destruct (is_none error); repeat split.
    + intros Hno. exfalso. eapply Hno. reflexivity.
  - split; [|split].
    + split; [intros [e He]; discriminate|].
      intros [[c [s ->]] | Hin]; [discriminate|].
      apply Htab in Hin as [text Htext].
      destruct Hmsg as [[c [s ->]] | Hm]; [discriminate|].
      rewrite <- Hm in Htext. discriminate.
    + intros e He. discriminate.
    + reflexivity.
Qed.

Lemma make_jsonrpc_error_defined_witness :
  (exists e, make_jsonrpc_error (PInt (-32601)) None PNone = Return e)
  /\ make_jsonrpc_error (PInt (-32001)) (Some EmptyString) PNone
     = Raise (KeyError "-32001").
Proof.
  split.
  - apply (proj1 (make_jsonrpc_error_defined (-32601) None PNone)).
    right. simpl. auto.
  - apply (proj2 (proj2 (make_jsonrpc_error_defined (-32001) (Some EmptyString) PNone))).
    intros e. vm_compute. discriminate.
Defined.

(** ** The registry over a run of [add] calls *)

Lemma dict_keys_sound (V : Type) (d : dict V) (k : string) :
  In k (dict_keys d) -> dict_mem k d = true.
Proof.
  unfold dict_mem, dict_keys.
  induction d as [|[k' v'] rest IH]; simpl; [contradiction|].
  intros [H|H].
  - subst k'. now rewrite String.eqb_refl.
  - destruct (String.eqb k k'); auto.
Qed.

Lemma nodup_snoc (l : list string) (x : string) :
  NoDup l -> ~ In x l -> NoDup (l ++ [x]).
Proof.
  induction 1 as [|y l Hy Hl IH]; simpl; intros Hx.
  - constructor; [auto | constructor].
  - constructor.
    + rewrite in_app_iff. simpl. intros [H|[H|[]]]; [auto|].
      apply Hx. now left.
    + apply IH. intros H. apply Hx. now right.
Qed.

(** One [add] keeps the names distinct and every binding it finds. *)
Lemma add_keeps_names_unique self func name :
  NoDup (dict_keys (method_registry self)) ->
  NoDup (dict_keys (method_registry (snd (add self func name)))).
Proof.
  intros Hnd. unfold add.
  destruct (dict_mem (function_name func name) (method_registry self)) eqn:Hb;
    simpl; [exact Hnd|].
  rewrite dict_set_fresh by now apply dict_mem_false.
  unfold dict_keys. rewrite map_app. simpl. apply nodup_snoc; [exact Hnd|].
  intros Hin. apply dict_keys_sound in Hin. congruence.
Qed.

Lemma add_keeps_binding self func name k m :
  dict_lookup k (method_registry self) = Some m ->
  dict_lookup k (method_registry (snd (add self func name))) = Some m.
Proof.
  intros Hk. unfold add.
  destruct (dict_mem (function_name func name) (method_registry self)) eqn:Hb;
    simpl; [exact Hk|].
  rewrite dict_lookup_set_neq; [exact Hk|].
  intros Heq. subst k. unfold dict_mem in Hb. now rewrite Hk in Hb.
Qed.

(** X17.  Whatever [add] calls follow the construction of a service, the
    names of its registry stay pairwise distinct and [system.describe]
    stays bound to the describe handler. *)
Theorem registry_names_stay_unique :
  forall (rs : pyval -> outcome unit) (sv : option Validation) (sys : Validation)
         (desc : pyval) (flag : bool) (calls : list (PyFunction * option string)),
    NoDup (dict_keys (method_registry (add_all (init rs sv sys desc flag) calls)))
    /\ dict_lookup "system.describe"
                   (method_registry (add_all (init rs sv sys desc flag) calls))
       = Some (handle_system_describe desc).
Proof.
  intros rs sv sys desc flag calls. unfold add_all.
  assert (H0 : NoDup (dict_keys (method_registry (init rs sv sys desc flag)))
               /\ dict_lookup "system.describe"
                              (method_registry (init rs sv sys desc flag))
                  = Some (handle_system_describe desc)).
  { split; [|reflexivity]. simpl. constructor; [simpl; tauto | constructor]. }
  revert H0. generalize (init rs sv sys desc flag) as s.
  induction calls as [|[func name] rest IH]; intros s [Hnd Hd]; simpl.
  - now split.
  - apply IH. split.
    + now apply add_keeps_names_unique.
    + now apply add_keeps_binding.
Qed.

(** X18.  The first registration of a name wins: a binding of the registry
    is the same after any run of [add] calls, those under the same name
    included. *)
Theorem registered_binding_persists :
  forall (self : JSONRPCService) (calls : list (PyFunction * option string))
         (k : string) (m : Method),
    dict_lookup k (method_registry self) = Some m ->
    dict_lookup k (method_registry (add_all self calls)) = Some m.
Proof.
  intros self calls. revert self. unfold add_all.
  induction calls as [|[func name] rest IH]; intros self k m Hk; simpl.
  - exact Hk.
  - apply IH. now apply add_keeps_binding.
Qed.

Lemma registered_binding_persists_witness :
  dict_lookup "add"
    (method_registry
       (add_all Demo.plain [ (Demo.text_func, None);
                             (Demo.raiser "boom" Demo.fault, Some "add") ]))
  = Some {| call_method := func_body Demo.add_func |}.
Proof.
  apply (registered_binding_persists Demo.plain
           [ (Demo.text_func, None); (Demo.raiser "boom" Demo.fault, Some "add") ]
           "add" {| call_method := func_body Demo.add_func |}).
  reflexivity.
Defined.

(** ** [add] and [call_py] together *)

(** What [call_py] does on a request for a bound method depends on the
    registry through that binding only. *)
Lemma call_py_same_binding self registry d options name method :
  dict_lookup "method" d = Some (PStr name) ->
  dict_lookup name (method_registry self) = Some method ->
  dict_lookup name registry = Some method ->
  call_py (set_registry self registry) (PDict d) options
  = call_py self (PDict d) options.
Proof.
  intros Hm Hr Hr'. unfold call_py. simpl.
  destruct (jsonrpc_schemas self (PDict d)) as [[]|e]; [|reflexivity].
  unfold getitem. rewrite Hm. simpl. rewrite Hr, Hr'. reflexivity.
Qed.

(** X19.  A method can be called once it is added: on a service without a
    schema directory, after [add] succeeded under a name outside the
    [system.] namespace, a valid request for that name gets the success
    envelope with what the function returns on the request's [params]. *)
Theorem added_method_is_callable :
  forall (self : JSONRPCService) (func : PyFunction) (name : option string)
         (d : dict pyval) (options r : pyval),
    dict_mem (function_name func name) (method_registry self) = false ->
    service_validation self = None ->
    String.prefix "system." (function_name func name) = false ->
    jsonrpc_schemas self (PDict d) = Return tt ->
    dict_lookup "method" d = Some (PStr (function_name func name)) ->
    func_body func (dict_get "params" d) options = Return r ->
    fst (add self func name) = Return tt
    /\ call_py (snd (add self func name)) (PDict d) options
       = Return (PDict (("version", PStr "1.1") :: ("result", r)
                        :: match dict_lookup "id" d with
                           | Some id => [ ("id", id) ]
                           | None => []
                           end)).
Proof.
  intros self func name d options r Hfresh Hsv Hsys Hv Hm Hbody.
  unfold add. rewrite Hfresh. simpl. split; [reflexivity|].
  apply (success_envelope _ d options (function_name func name)
           {| call_method := func_body func |} r r); auto.
  - simpl. apply dict_lookup_set_eq.
  - rewrite do_method_unvalidated; auto.
  - unfold do_result. simpl. rewrite Hsv.
    now destruct (negb (validate_result_flag self)).
Qed.

Lemma added_method_is_callable_witness :
  call_py (snd (add Demo.bare Demo.add_func (Some "sum")))
          (Demo.request "sum" [ ("params", PList [PInt 2; PInt 3]); ("id", PStr "a") ])
          PNone
  = Return (PDict [ ("version", PStr "1.1"); ("result", PInt 5); ("id", PStr "a") ]).
Proof.
  apply (proj2 (added_method_is_callable Demo.bare Demo.add_func (Some "sum")
                  [ ("version", PStr "1.1"); ("method", PStr "sum");
                    ("params", PList [PInt 2; PInt 3]); ("id", PStr "a") ]
                  PNone (PInt 5)
                  eq_refl eq_refl eq_refl eq_refl eq_refl eq_refl)).
Defined.

(** X20.  [add] does not disturb the methods already there: a request for
    a method that was bound before the call to [add] gets the same
    outcome after it, whether [add] returned or raised. *)
Theorem add_keeps_existing_calls :
  forall (self : JSONRPCService) (func : PyFunction) (name : option string)
         (d : dict pyval) (options : pyval) (m : string) (method : Method),
    dict_lookup "method" d = Some (PStr m) ->
    dict_lookup m (method_registry self) = Some method ->
    call_py (snd (add self func name)) (PDict d) options
    = call_py self (PDict d) options.
Proof.
  intros self func name d options m method Hm Hr.
  pose proof (add_keeps_binding self func name m method Hr) as Hr'.
  unfold add in *.
  destruct (dict_mem (function_name func name) (method_registry self));
    simpl in *; [reflexivity|].
  now apply (call_py_same_binding self _ d options m method).
Qed.

Lemma add_keeps_existing_calls_witness :
  call_py (snd (add Demo.plain (Demo.raiser "boom" Demo.fault) None))
          Demo.sum_request PNone
  = call_py Demo.plain Demo.sum_request PNone.
Proof.
  apply (add_keeps_existing_calls Demo.plain (Demo.raiser "boom" Demo.fault) None
           [ ("version", PStr "1.1"); ("method", PStr "add");
             ("params", PList [PInt 2; PInt 3]); ("id", PInt 1) ]
           PNone "add" {| call_method := func_body Demo.add_func |});
    reflexivity.
Defined.

(** ** The predefined error classes *)

(** X21.  A handler that raises one of the predefined protocol errors gets
    an envelope with the class's code and, as message, the one given to
    the constructor (an empty one included) or else the class's default;
    the diagnostic data holds the method name alone. *)
Theorem predefined_error_envelope :
  forall (self : JSONRPCService) (d : dict pyval) (options : pyval)
         (name : string) (method : Method)
         (cls : error_class) (message : option string),
    jsonrpc_schemas self (PDict d) = Return tt ->
    dict_lookup "method" d = Some (PStr name) ->
    dict_lookup name (method_registry self) = Some method ->
    do_method self name method (dict_get "params" d) options
    = Raise (new_error cls message) ->
    exists resp,
      call_py self (PDict d) options = Return resp
      /\ at_path ["error"; "name"] resp = Some (PStr "JSONRPCError")
      /\ at_path ["error"; "code"] resp = Some (PInt (class_code cls))
      /\ at_path ["error"; "message"] resp
         = Some (PStr (match message with
                       | Some m => m
                       | None => str_of_opt (class_message cls)
                       end))
      /\ at_path ["error"; "error"] resp = Some (PDict [ ("method", PStr name) ]).
Proof.
  intros self d options name method cls message Hv Hm Hr Hdo.
  rewrite (call_py_method_raises self d options name method _ Hv Hm Hr Hdo).
  unfold new_error. eexists. split; [reflexivity|].
  rewrite !at_path_error_response. repeat split.
  destruct message; reflexivity.
Qed.

Lemma predefined_error_envelope_witness :
  exists resp,
    call_py (Demo.with_method Demo.bare
               (Demo.raiser "find" (new_error MethodNotFoundError None)))
            (Demo.request "find" []) PNone
    = Return resp
    /\ at_path ["error"; "code"] resp = Some (PInt (-32601))
    /\ at_path ["error"; "message"] resp = Some (PStr "Method not found").
Proof.
  destruct (predefined_error_envelope
              (Demo.with_method Demo.bare
                 (Demo.raiser "find" (new_error MethodNotFoundError None)))
              [ ("version", PStr "1.1"); ("method", PStr "find") ]
              PNone "find"
              {| call_method :=
                   func_body (Demo.raiser "find" (new_error MethodNotFoundError None)) |}
              MethodNotFoundError None eq_refl eq_refl eq_refl eq_refl)
    as [resp [Hc [_ [Hcode [Hmsg _]]]]].
  exists resp. auto.
Defined.
